(** * discord_mcp: webhook registry, announcement formatting and dispatch

    A shallow embedding of [src/discord_mcp.py].  Python values are modelled
    as the interpreter has them: a [str] is a sequence of Unicode code points,
    a [dict] keeps its insertion order, an [int] is unbounded.  The registry
    file, the clock and the HTTP peer are the environment of the server and
    appear as explicit state and oracles. *)

From Stdlib Require Import List NArith ZArith Bool String Ascii Lia DecimalString.
Import ListNotations.

Set Implicit Arguments.

(* ================================================================== *)
(** * Python strings *)
(* ================================================================== *)

Module Py.

Local Open Scope N_scope.

(** A Python [str]: its code points, in order.  [len] counts code points. *)
Definition str := list N.

(** An ASCII literal of the source. *)
Fixpoint lit (s : string) : str :=
  match s with
  | EmptyString => []
  | String a r => N_of_ascii a :: lit r
  end.

Definition len (s : str) : nat := List.length s.

Fixpoint str_eqb (a b : str) : bool :=
  match a, b with
  | [], [] => true
  | x :: a', y :: b' => (x =? y) && str_eqb a' b'
  | _, _ => false
  end.

(** Truthiness of a string: [if s:] holds for the non-empty ones. *)
Definition truthy (s : str) : bool :=
  match s with [] => false | _ :: _ => true end.

Definition is_ascii (c : N) : bool := c <? 128.
Definition ascii_upper (c : N) : bool := (65 <=? c) && (c <=? 90).
Definition ascii_lower (c : N) : bool := (97 <=? c) && (c <=? 122).
Definition ascii_digit (c : N) : bool := (48 <=? c) && (c <=? 57).

(** The part of the Unicode Character Database that the built-ins below
    consult for code points outside ASCII.  The methods are only ever asked
    about code points from U+0080 upwards. *)
Class UnicodeData := {
  (** full lowercase mapping of a code point other than U+03A3 *)
  ucd_lower : N -> str;
  (** is a U+03A3 between the texts [before] (nearest code point first) and
      [after] in the Final_Sigma context *)
  ucd_final_sigma : str -> str -> bool;
  (** [isalpha() or isdecimal() or isdigit() or isnumeric()] *)
  ucd_alnum : N -> bool;
  (** white space *)
  ucd_space : N -> bool;
  (** value of a decimal digit *)
  ucd_decimal : N -> option N;
  (** [isprintable()] *)
  ucd_printable : N -> bool;
  (** a lowercase mapping holds neither a blank nor an ASCII capital *)
  ucd_lower_sane :
    forall c x, 128 <= c -> In x (ucd_lower c) -> x <> 32 /\ ascii_upper x = false
}.

Section Builtins.

Context {U : UnicodeData}.

(** [c.isalnum()] for one code point. *)
Definition isalnum_cp (c : N) : bool :=
  if is_ascii c then ascii_upper c || ascii_lower c || ascii_digit c
  else ucd_alnum c.

(** [s.isalnum()]: every code point is alphanumeric and there is at least
    one. *)
Definition isalnum (s : str) : bool :=
  match s with
  | [] => false
  | _ :: _ => forallb isalnum_cp s
  end.

Definition lower_cp (c : N) : str :=
  if is_ascii c then [if ascii_upper c then c + 32 else c]
  else ucd_lower c.

(** [s.lower()], reading [s] left to right; [before] is what was read. *)
Fixpoint lower_from (before s : str) : str :=
  match s with
  | [] => []
  | c :: rest =>
      (if c =? 931
       then [if ucd_final_sigma before rest then 962 else 963]
       else lower_cp c)
      ++ lower_from (c :: before) rest
  end.

Definition lower (s : str) : str := lower_from [] s.

(** [s.startswith(prefix)] *)
Fixpoint startswith (s prefix : str) {struct prefix} : bool :=
  match prefix, s with
  | [], _ => true
  | p :: ps, c :: cs => (p =? c) && startswith cs ps
  | _ :: _, [] => false
  end.

(** [s.replace(old, new)] for a non-empty [old]: occurrences are found left
    to right and do not overlap; [skip] counts the code points of the
    occurrence just replaced that are still to be passed over. *)
Fixpoint replace_from (skip : nat) (old new s : str) : str :=
  match s with
  | [] => []
  | c :: rest =>
      match skip with
      | S k => replace_from k old new rest
      | O =>
          if startswith s old
          then new ++ replace_from (len old - 1) old new rest
          else c :: replace_from 0 old new rest
      end
  end.

(** [s.replace(old, new)]; an empty [old] matches before every code point
    and at the end. *)
Definition replace (s old new : str) : str :=
  match old with
  | [] => new ++ flat_map (fun c => c :: new) s
  | _ :: _ => replace_from 0 old new s
  end.

Definition mem (c : N) (chars : str) : bool := existsb (N.eqb c) chars.

(** [s.lstrip(chars)] *)
Fixpoint lstrip (s chars : str) : str :=
  match s with
  | [] => []
  | c :: rest => if mem c chars then lstrip rest chars else s
  end.

(** [sep.join(parts)] *)
Fixpoint join (sep : str) (parts : list str) : str :=
  match parts with
  | [] => []
  | [p] => p
  | p :: rest => p ++ sep ++ join sep rest
  end.

(** [s[-n:]] for a positive [n]. *)
Definition last_chars (n : nat) (s : str) : str := skipn (len s - n) s.

(** [needle in s] *)
Fixpoint contains (s needle : str) : bool :=
  startswith s needle ||
  match s with
  | [] => false
  | _ :: rest => contains rest needle
  end.

(** [str(z)] for an [int]. *)
Definition str_of_int (z : Z) : str := lit (NilZero.string_of_int (Z.to_int z)).

Definition hex_digit (d : N) : N := if d <? 10 then 48 + d else 87 + d.

(** Lowercase hexadecimal, [width] digits, least significant last. *)
Fixpoint hex_fixed (width : nat) (n : N) : str :=
  match width with
  | O => []
  | S w => hex_fixed w (n / 16) ++ [hex_digit (n mod 16)]
  end.

(** ** [int(s, 16)] *)

(** C's [isspace] in the C locale, which the integer parser uses. *)
Definition c_isspace (c : N) : bool := ((9 <=? c) && (c <=? 13)) || (c =? 32).

(** Before parsing, a space outside ASCII becomes a blank and a decimal
    digit outside ASCII its ASCII digit; any other code point outside ASCII
    becomes a question mark and ends the text.  (U+007F is kept or becomes a
    question mark; the parser refuses both.) *)
Fixpoint to_ascii_digits (s : str) : str :=
  match s with
  | [] => []
  | c :: rest =>
      if is_ascii c then c :: to_ascii_digits rest
      else if ucd_space c then 32 :: to_ascii_digits rest
      else match ucd_decimal c with
           | Some d => (48 + d) :: to_ascii_digits rest
           | None => [63]
           end
  end.

(** Value of a digit in bases up to 36. *)
Definition digit_value (c : N) : option N :=
  if ascii_digit c then Some (c - 48)
  else if ascii_lower c then Some (c - 87)
  else if ascii_upper c then Some (c - 55)
  else None.

Definition hex_value (c : N) : option N :=
  match digit_value c with
  | Some d => if d <? 16 then Some d else None
  | None => None
  end.

Fixpoint skip_spaces (s : str) : str :=
  match s with
  | c :: rest => if c_isspace c then skip_spaces rest else s
  | [] => []
  end.

(** The run of digits: single underscores may separate digits, and the run
    may not end in one.  Returns the value and the text after the run. *)
Fixpoint hex_run (after_underscore : bool) (acc : Z) (s : str) : option (Z * str) :=
  match s with
  | [] => if after_underscore then None else Some (acc, [])
  | c :: rest =>
      if c =? 95 then
        if after_underscore then None else hex_run true acc rest
      else
        match hex_value c with
        | Some d => hex_run false (16 * acc + Z.of_N d)%Z rest
        | None => if after_underscore then None else Some (acc, s)
        end
  end.

(** [int(s, 16)]; [None] stands for [ValueError].  After leading blanks
    come an optional sign, an optional [0x] or [0X] (which one underscore
    may follow), the digits, and trailing blanks. *)
Definition int16 (s : str) : option Z :=
  let s := skip_spaces (to_ascii_digits s) in
  let '(negative, s) :=
    match s with
    | c :: r =>
        if c =? 43 then (false, r)
        else if c =? 45 then (true, r)
        else (false, s)
    | [] => (false, s)
    end in
  let s :=
    match s with
    | zero :: x :: r =>
        if (zero =? 48) && ((x =? 120) || (x =? 88))
        then match r with
             | c :: r' => if c =? 95 then r' else r
             | [] => r
             end
        else s
    | _ => s
    end in
  match s with
  | [] => None
  | c :: _ =>
      match hex_value c with
      | None => None
      | Some _ =>
          match hex_run false 0%Z s with
          | Some (v, rest) =>
              match skip_spaces rest with
              | [] => Some (if negative then (- v)%Z else v)
              | _ :: _ => None
              end
          | None => None
          end
      end
  end.

(** ** Whitespace stripping of validated input

    The input models are declared with [str_strip_whitespace=True]: leading
    and trailing white space is removed from every string field before its
    constraints and validators run. *)

Definition white_space (c : N) : bool :=
  if is_ascii c then c_isspace c else ucd_space c.

Fixpoint drop_white (s : str) : str :=
  match s with
  | c :: rest => if white_space c then drop_white rest else s
  | [] => []
  end.

Definition strip (s : str) : str := rev (drop_white (rev (drop_white s))).

End Builtins.

End Py.

(* ================================================================== *)
(** * Python dictionaries and JSON values *)
(* ================================================================== *)

Module Dict.

Import Py.

(** A [dict] with string keys, in insertion order; keys do not repeat. *)
Definition t (V : Type) := list (str * V).

Section Ops.

Variable V : Type.

(** [d.get(k)] *)
Fixpoint get (d : t V) (k : str) : option V :=
  match d with
  | [] => None
  | (k', v) :: rest => if str_eqb k' k then Some v else get rest k
  end.

(** [k in d] *)
Definition has (d : t V) (k : str) : bool :=
  match get d k with Some _ => true | None => false end.

(** [d[k] = v]: a known key keeps its place, a new key goes last. *)
Fixpoint set (d : t V) (k : str) (v : V) : t V :=
  match d with
  | [] => [(k, v)]
  | (k', v') :: rest =>
      if str_eqb k' k then (k, v) :: rest else (k', v') :: set rest k v
  end.

(** [del d[k]] for a key of [d]. *)
Definition del (d : t V) (k : str) : t V :=
  filter (fun kv => negb (str_eqb (fst kv) k)) d.

(** [list(d.keys())] *)
Definition keys (d : t V) : list str := map fst d.

End Ops.

End Dict.

Module Json.

Import Py.

Local Open Scope N_scope.

(** What [json.load] returns and [json.dumps] accepts here: JSON numbers
    with a fraction or an exponent (Python [float]) are left out. *)
#[local] Unset Elimination Schemes.
Inductive value :=
| JNull
| JBool (b : bool)
| JInt (z : Z)
| JStr (s : str)
| JList (items : list value)
| JDict (members : list (str * value)).
#[local] Set Elimination Schemes.

Section Printing.

Context {U : UnicodeData}.

(** ** [json.dumps(v, indent=2)] *)

(** One code point of a string, escaped as [ensure_ascii=True] does. *)
Definition escape_cp (c : N) : str :=
  if c =? 34 then [92; 34]
  else if c =? 92 then [92; 92]
  else if c =? 10 then [92; 110]
  else if c =? 13 then [92; 114]
  else if c =? 9 then [92; 116]
  else if c =? 8 then [92; 98]
  else if c =? 12 then [92; 102]
  else if (32 <=? c) && (c <=? 126) then [c]
  else if c <? 65536 then [92; 117] ++ hex_fixed 4 c
  else
    let v := c - 65536 in
    [92; 117] ++ hex_fixed 4 (55296 + (v / 1024) mod 1024) ++
    [92; 117] ++ hex_fixed 4 (56320 + v mod 1024).

Definition dumps_str (s : str) : str := [34] ++ flat_map escape_cp s ++ [34].

Definition indent (level : nat) : str := repeat 32 (2 * level).

Definition newline_indent (level : nat) : str := [10] ++ indent level.

Fixpoint dumps_at (level : nat) (v : value) : str :=
  match v with
  | JNull => lit "null"
  | JBool true => lit "true"
  | JBool false => lit "false"
  | JInt z => str_of_int z
  | JStr s => dumps_str s
  | JList [] => lit "[]"
  | JList items =>
      lit "[" ++ newline_indent (S level) ++
      join (lit "," ++ newline_indent (S level))
           (map (dumps_at (S level)) items) ++
      newline_indent level ++ lit "]"
  | JDict [] => lit "{}"
  | JDict members =>
      lit "{" ++ newline_indent (S level) ++
      join (lit "," ++ newline_indent (S level))
           (map (fun kv => dumps_str (fst kv) ++ lit ": " ++ dumps_at (S level) (snd kv))
                members) ++
      newline_indent level ++ lit "}"
  end.

Definition dumps (v : value) : str := dumps_at 0 v.

(** ** [str(v)] and [repr(v)], as an f-string renders a value *)

Definition repr_cp (quote : N) (c : N) : str :=
  if (c =? quote) || (c =? 92) then [92; c]
  else if c =? 9 then [92; 116]
  else if c =? 10 then [92; 110]
  else if c =? 13 then [92; 114]
  else if (c <? 32) || (c =? 127) then [92; 120] ++ hex_fixed 2 c
  else if c <? 127 then [c]
  else if ucd_printable c then [c]
  else if c <=? 255 then [92; 120] ++ hex_fixed 2 c
  else if c <=? 65535 then [92; 117] ++ hex_fixed 4 c
  else [92; 85] ++ hex_fixed 8 c.

Definition repr_str (s : str) : str :=
  let quote := if mem 39 s && negb (mem 34 s) then 34 else 39 in
  [quote] ++ flat_map (repr_cp quote) s ++ [quote].

Fixpoint repr (v : value) : str :=
  match v with
  | JNull => lit "None"
  | JBool true => lit "True"
  | JBool false => lit "False"
  | JInt z => str_of_int z
  | JStr s => repr_str s
  | JList items => lit "[" ++ join (lit ", ") (map repr items) ++ lit "]"
  | JDict members =>
      lit "{" ++
      join (lit ", ")
           (map (fun kv => repr_str (fst kv) ++ lit ": " ++ repr (snd kv)) members) ++
      lit "}"
  end.

Definition to_str (v : value) : str :=
  match v with
  | JStr s => s
  | _ => repr v
  end.

(** The name of the Python type of a loaded value. *)
Definition type_name (v : value) : str :=
  match v with
  | JNull => lit "NoneType"
  | JBool _ => lit "bool"
  | JInt _ => lit "int"
  | JStr _ => lit "str"
  | JList _ => lit "list"
  | JDict _ => lit "dict"
  end.

(** Truthiness of a loaded value. *)
Definition value_truthy (v : value) : bool :=
  match v with
  | JNull => false
  | JBool b => b
  | JInt z => negb (z =? 0)%Z
  | JStr s => Py.truthy s
  | JList l => match l with [] => false | _ => true end
  | JDict d => match d with [] => false | _ => true end
  end.

End Printing.

End Json.

(* ================================================================== *)
(** * The server *)
(* ================================================================== *)

Module Discord.

Import Py.
Import Json.

Definition nl : str := [10%N].

(** ** Constants *)

Definition DISCORD_MESSAGE_LIMIT : nat := 2000.

Definition LIVING_LANDS_LOGO_URL : str :=
  lit "https://raw.githubusercontent.com/MoshPitCodes/hytale-livinglands/main/.github/assets/logo/hytale-livinglands-logo.png".

(** ** Enums *)

Inductive ResponseFormat := MARKDOWN | JSON.

Inductive AnnouncementStyle := RELEASE | HOTFIX | BETA | CUSTOM.

(** ** Exceptions *)

(** The classes that an [except] clause or an [isinstance] test of the
    server tells apart; a subclass counts as its class. *)
Inductive exn_class :=
| HTTPStatusError (status : Z)  (** with [e.response.status_code] *)
| TimeoutException
| ConnectError
| JSONDecodeError               (** a subclass of [ValueError] *)
| ValueError                    (** the other [ValueError]s, [UnicodeDecodeError] among them *)
| OSError                       (** also known as [IOError] *)
| OtherException.

(** An exception: its class, [type(e).__name__] and [str(e)]. *)
Record exn := Exn {
  exn_class_of : exn_class;
  exn_name : str;
  exn_text : str
}.

Inductive result (A : Type) :=
| Ok (a : A)
| Raise (e : exn).

Arguments Ok {A} a.
Arguments Raise {A} e.

(** ** The registry file *)

(** A stored webhook: the members of its JSON object, each of which may be
    missing; a description may also be [null].  The registry is the
    document that add-webhook writes, an object of such objects. *)
Record entry := Entry {
  entry_url : option str;
  entry_description : option (option str);
  entry_added_at : option str
}.

Definition registry := Dict.t entry.

(** What is at [WEBHOOKS_FILE]. *)
Inductive file_state :=
| Missing                   (** no such file *)
| Unopenable (why : str)    (** [open] raises [OSError]: permissions, a directory *)
| Undecodable (why : str)   (** bytes that are not text in the encoding of [open]:
                                reading raises [UnicodeDecodeError] *)
| Malformed (why : str)     (** text that is not JSON: [json.load] raises
                                [JSONDecodeError] *)
| Stored (doc : registry).  (** a document that [json.load] returns as [doc] *)

(** ** The HTTP peer *)

(** One call of [client.post(url, json=payload, ...)]. *)
Record request := Request {
  req_url : str;
  req_json : value
}.

(** An [httpx.Response]: [status_code], [text], and what [json()] does. *)
Record response := Response {
  status_code : Z;
  text : str;
  json : result value
}.

(** ** Environment and state *)

Record env := Env {
  (** the answer to a request, given the requests made before it *)
  http_post : list request -> request -> result response;
  (** [datetime.now().isoformat()] *)
  now : str;
  (** [datetime.utcnow().isoformat()] *)
  utcnow : str;
  (** whether [open(WEBHOOKS_FILE, 'w')] raises *)
  open_for_writing : option exn
}.

Record world := World {
  file : file_state;
  posts : list request   (** the requests sent so far, oldest first *)
}.

(** Computations of the server: they read the environment, change the
    world, and return or raise. *)
Definition M (A : Type) := env -> world -> result A * world.

Definition ret {A} (a : A) : M A := fun _ w => (Ok a, w).

Definition raise {A} (e : exn) : M A := fun _ w => (Raise e, w).

Definition bind {A B} (m : M A) (k : A -> M B) : M B :=
  fun en w =>
    match m en w with
    | (Ok a, w') => k a en w'
    | (Raise e, w') => (Raise e, w')
    end.

Notation "x <- m ;; k" := (bind m (fun x => k))
  (at level 61, m at next level, right associativity).

(** [try: m except classes: handler], [catches] saying which exceptions the
    clause names. *)
Definition try_except {A} (m : M A) (catches : exn -> bool) (handler : exn -> M A) : M A :=
  fun en w =>
    match m en w with
    | (Ok a, w') => (Ok a, w')
    | (Raise e, w') => if catches e then handler e en w' else (Raise e, w')
    end.

(** A tool body: [try: m except Exception as e: return handler(e)]. *)
Definition tool (m : M str) (handler : exn -> str) : env -> world -> str * world :=
  fun en w =>
    match m en w with
    | (Ok s, w') => (s, w')
    | (Raise e, w') => (handler e, w')
    end.

(** ** Webhook configuration management *)

Definition file_exists (f : file_state) : bool :=
  match f with Missing => false | _ => true end.

(** [with open(WEBHOOKS_FILE, 'r') as f: return json.load(f)] *)
Definition open_and_load : M registry :=
  fun _ w =>
    match file w with
    | Missing => (Raise (Exn OSError (lit "FileNotFoundError") (lit "No such file or directory")), w)
    | Unopenable why => (Raise (Exn OSError (lit "OSError") why), w)
    | Undecodable why => (Raise (Exn ValueError (lit "UnicodeDecodeError") why), w)
    | Malformed why => (Raise (Exn JSONDecodeError (lit "JSONDecodeError") why), w)
    | Stored doc => (Ok doc, w)
    end.

Definition is_JSONDecodeError_or_IOError (e : exn) : bool :=
  match exn_class_of e with
  | JSONDecodeError | OSError => true
  | _ => false
  end.

Definition _load_webhooks : M registry :=
  fun en w =>
    if negb (file_exists (file w)) then ret [] en w
    else try_except open_and_load is_JSONDecodeError_or_IOError (fun _ => ret []) en w.

Definition _save_webhooks (webhooks : registry) : M unit :=
  fun en w =>
    match open_for_writing en with
    | Some e => (Raise e, w)
    | None => (Ok tt, World (Stored webhooks) (posts w))
    end.

(** Truthiness of a stored webhook: a JSON object with no member is false. *)
Definition entry_truthy (e : entry) : bool :=
  match entry_url e, entry_description e, entry_added_at e with
  | None, None, None => false
  | _, _, _ => true
  end.

Section WithUnicode.

Context {U : UnicodeData}.

Definition _get_webhook_url (name : str) : M (option str) :=
  webhooks <- _load_webhooks ;;
  let webhook := Dict.get webhooks (lower name) in
  ret match webhook with
      | Some e => if entry_truthy e then entry_url e else None
      | None => None
      end.

(** ** Shared utilities *)

Definition option_truthy (o : option str) : bool :=
  match o with Some s => truthy s | None => false end.

Definition add_if_truthy (key : str) (o : option str) (payload : Dict.t value) : Dict.t value :=
  match o with
  | Some s => if truthy s then Dict.set payload key (JStr s) else payload
  | None => payload
  end.

Definition is_JSONDecodeError_or_ValueError (e : exn) : bool :=
  match exn_class_of e with
  | JSONDecodeError | ValueError => true
  | _ => false
  end.

(** [client.post(...)]: the request goes out and the peer answers. *)
Definition post (r : request) : M response :=
  fun en w =>
    let w' := World (file w) (posts w ++ [r]) in
    match http_post en (posts w) r with
    | Ok resp => (Ok resp, w')
    | Raise e => (Raise e, w')
    end.

(** What [response.json()] returns or raises. *)
Definition response_json (resp : response) : M value :=
  match json resp with
  | Ok v => ret v
  | Raise e => raise e
  end.

(** [error_json.get("message", error_text)]; only a [dict] has [get]. *)
Definition get_message (error_json : value) (error_text : value) : M value :=
  match error_json with
  | JDict members =>
      ret match Dict.get members (lit "message") with
          | Some v => v
          | None => error_text
          end
  | other =>
      raise (Exn OtherException (lit "AttributeError")
               (lit "'" ++ type_name other ++ lit "' object has no attribute 'get'"))
  end.

(** The payload of a message: what is given and not empty, in the order
    content, username, avatar_url, embeds. *)
Definition payload_of (content username avatar_url : option str)
    (embeds : option (list value)) : Dict.t value :=
  let payload : Dict.t value := [] in
  let payload := add_if_truthy (lit "content") content payload in
  let payload := add_if_truthy (lit "username") username payload in
  let payload := add_if_truthy (lit "avatar_url") avatar_url payload in
  match embeds with
  | Some (e :: es) => Dict.set payload (lit "embeds") (JList (e :: es))
  | _ => payload
  end.

Definition _send_webhook_message
    (webhook_url : str) (content username avatar_url : option str)
    (embeds : option (list value)) : M value :=
  let payload := payload_of content username avatar_url embeds in
  resp <- post (Request webhook_url (JDict payload)) ;;
  if (status_code resp =? 204)%Z then
    ret (JDict [ (lit "success", JBool true);
                 (lit "status_code", JInt 204);
                 (lit "message", JStr (lit "Message sent successfully")) ])
  else if (status_code resp =? 200)%Z then
    body <- (if truthy (text resp) then response_json resp else ret JNull) ;;
    ret (JDict [ (lit "success", JBool true);
                 (lit "status_code", JInt 200);
                 (lit "message", JStr (lit "Message sent successfully"));
                 (lit "response", body) ])
  else
    let error_text := JStr (text resp) in
    error_text <-
      try_except
        (error_json <- response_json resp ;; get_message error_json error_text)
        is_JSONDecodeError_or_ValueError
        (fun _ => ret error_text) ;;
    ret (JDict [ (lit "success", JBool false);
                 (lit "status_code", JInt (status_code resp));
                 (lit "error", error_text) ]).

Definition _handle_error (e : exn) : str :=
  match exn_class_of e with
  | HTTPStatusError status =>
      if (status =? 400)%Z then
        lit "Error: Bad request. Check that the message content is valid and within Discord's limits."
      else if (status =? 401)%Z then
        lit "Error: Unauthorized. The webhook URL may be invalid or expired."
      else if (status =? 403)%Z then
        lit "Error: Forbidden. The webhook may have been deleted or you don't have permission."
      else if (status =? 404)%Z then
        lit "Error: Webhook not found. The webhook URL may be invalid or deleted."
      else if (status =? 429)%Z then
        lit "Error: Rate limited. Too many requests. Please wait before sending more messages."
      else
        lit "Error: Discord API returned status " ++ str_of_int status
  | TimeoutException =>
      lit "Error: Request timed out. Discord may be experiencing issues. Please try again."
  | ConnectError =>
      lit "Error: Could not connect to Discord. Check your internet connection."
  | _ =>
      lit "Error: " ++ exn_name e ++ lit ": " ++ exn_text e
  end.

(** ** Input models

    The tools receive validated models.  Every string field is stripped of
    surrounding white space, then checked against its length bounds, then
    passed to the field's validator, whose result is the field's value. *)

Inductive validation_error :=
| string_too_short (min_length : nat)
| string_too_long (max_length : nat)
| value_error (message : str).

Definition check_length (min_length max_length : nat) (v : str) : validation_error + str :=
  if len v <? min_length then inl (string_too_short min_length)
  else if max_length <? len v then inl (string_too_long max_length)
  else inr v.

Record SendMessageInput := {
  sm_webhook_name : str;
  sm_content : str;
  sm_username : option str;
  sm_avatar_url : option str;
  sm_response_format : ResponseFormat
}.

Record SendAnnouncementInput := {
  webhook_name : str;
  version : str;
  headline : str;
  changes : list str;
  download_url : option str;
  style : AnnouncementStyle;
  beta_warning : bool;
  use_embed : bool;
  embed_color : option str;
  thumbnail_url : option str;
  footer_text : option str;
  username : option str;
  response_format : ResponseFormat
}.

Record RemoveWebhookInput := {
  rm_name : str
}.

Record ListWebhooksInput := {
  ls_response_format : ResponseFormat
}.

Record AddWebhookInput := {
  name : str;
  url : str;
  description : option str
}.

Definition validate_webhook_url (v : str) : validation_error + str :=
  if negb (startswith v (lit "https://discord.com/api/webhooks/"))
     && negb (startswith v (lit "https://discordapp.com/api/webhooks/"))
  then inl (value_error (lit "Invalid Discord webhook URL. Must start with 'https://discord.com/api/webhooks/' or 'https://discordapp.com/api/webhooks/'"))
  else inr v.

Definition validate_name (v : str) : validation_error + str :=
  let sanitized := replace (lower v) (lit " ") (lit "_") in
  if negb (isalnum (replace sanitized (lit "_") []))
  then inl (value_error (lit "Webhook name must contain only alphanumeric characters and spaces/underscores"))
  else inr sanitized.

(** [name: str = Field(..., min_length=1, max_length=50)] and its validator,
    on the stripped value. *)
Definition check_name (v : str) : validation_error + str :=
  match check_length 1 50 v with
  | inl e => inl e
  | inr v => validate_name v
  end.

(** [url: str = Field(..., min_length=50, max_length=300)] and its
    validator, on the stripped value. *)
Definition check_url (v : str) : validation_error + str :=
  match check_length 50 300 v with
  | inl e => inl e
  | inr v => validate_webhook_url v
  end.

(** [description: Optional[str] = Field(default=None, max_length=200)] *)
Definition check_description (v : option str) : validation_error + option str :=
  match v with
  | None => inr None
  | Some d =>
      if 200 <? len d then inl (string_too_long 200) else inr (Some d)
  end.

(** Building the model from the arguments of a call: the errors of all
    fields, or the model. *)
Definition validate_AddWebhookInput (raw_name raw_url : str) (raw_description : option str)
  : list (str * validation_error) + AddWebhookInput :=
  let n := check_name (strip raw_name) in
  let u := check_url (strip raw_url) in
  let d := check_description (option_map strip raw_description) in
  match n, u, d with
  | inr n, inr u, inr d => inr (Build_AddWebhookInput n u d)
  | _, _, _ =>
      inl ((match n with inl e => [(lit "name", e)] | inr _ => [] end) ++
           (match u with inl e => [(lit "url", e)] | inr _ => [] end) ++
           (match d with inl e => [(lit "description", e)] | inr _ => [] end))
  end.

(** ** Formatting *)

Definition emoji_map (style : AnnouncementStyle) : str :=
  match style with
  | RELEASE => [128230%N]
  | HOTFIX => [128680%N]
  | BETA => [129514%N]
  | CUSTOM => [128226%N]
  end.

(** U+2192, the arrow that bullets a change. *)
Definition arrow : str := [8594%N].

(** The body of the loop over [changes] of the plain-text builder: the line
    appended for one change. *)
Definition change_line (change : str) : str :=
  if negb (startswith change arrow) && negb (startswith change (lit "->"))
  then arrow ++ lit " " ++ change
  else replace change (lit "->") arrow.

Definition beta_warning_line : str :=
  [9888%N; 65039%N] ++ lit " Beta " ++ [8212%N] ++ lit " back up your world before updating.".

Definition link_emoji : str := [128279%N].

Definition _format_announcement
    (version headline : str) (changes : list str) (download_url : option str)
    (style : AnnouncementStyle) (beta_warning : bool) : str :=
  let emoji := emoji_map style in
  let lines := [emoji ++ lit " **" ++ version ++ lit "** is live!"] in
  let lines := lines ++ [[]] in
  let lines := lines ++ [headline] in
  let lines := lines ++ [[]] in
  let lines := lines ++ map change_line changes in
  let lines := if beta_warning then lines ++ [[]; beta_warning_line] else lines in
  let lines :=
    if option_truthy download_url
    then lines ++ [link_emoji ++ lit " " ++ match download_url with Some u => u | None => [] end]
    else lines in
  join nl lines.

Definition color_map (style : AnnouncementStyle) : Z :=
  match style with
  | RELEASE => 0x57F287   (* green *)
  | HOTFIX => 0xED4245    (* red *)
  | BETA => 0xFEE75C      (* yellow *)
  | CUSTOM => 0x5865F2    (* blurple *)
  end.

(** The colour of the embed: the custom colour when it is given and parses,
    else the colour of the style. *)
Definition embed_color_of (style : AnnouncementStyle) (embed_color : option str) : Z :=
  if option_truthy embed_color then
    let color_hex := lstrip (match embed_color with Some c => c | None => [] end) (lit "#") in
    match int16 color_hex with
    | Some color => color
    | None => color_map style
    end
  else color_map style.

Definition field (name value : str) : Json.value :=
  JDict [ (lit "name", JStr name); (lit "value", JStr value); (lit "inline", JBool false) ].

(** [embed["fields"].append(f)] when the embed has fields, else
    [embed["fields"] = [f]]. *)
Definition append_field (embed : Dict.t value) (f : value) : Dict.t value :=
  match Dict.get embed (lit "fields") with
  | Some (JList fields) => Dict.set embed (lit "fields") (JList (fields ++ [f]))
  | _ => Dict.set embed (lit "fields") (JList [f])
  end.

Definition _build_announcement_embed
    (utcnow_iso : str)
    (version headline : str) (changes : list str) (download_url : option str)
    (style : AnnouncementStyle) (beta_warning : bool)
    (embed_color thumbnail_url footer_text : option str) : Dict.t value :=
  let color := embed_color_of style embed_color in
  let emoji := emoji_map style in
  let embed : Dict.t value :=
    [ (lit "title", JStr (emoji ++ lit " " ++ version ++ lit " is live!"));
      (lit "description", JStr headline);
      (lit "color", JInt color);
      (lit "timestamp", JStr (utcnow_iso ++ lit "Z")) ] in
  let embed :=
    match changes with
    | [] => embed
    | _ :: _ =>
        let changes_text := join nl (map (fun change => arrow ++ lit " " ++ change) changes) in
        Dict.set embed (lit "fields") (JList [field (lit "What's New") changes_text])
    end in
  let embed :=
    if beta_warning then
      append_field embed
        (field ([9888%N; 65039%N] ++ lit " Warning")
               (lit "This is a **beta release**. Back up your world before updating!"))
    else embed in
  let embed :=
    match download_url with
    | Some u =>
        if truthy u then
          append_field (Dict.set embed (lit "url") (JStr u))
            (field (link_emoji ++ lit " Download") (lit "[Get it here](" ++ u ++ lit ")"))
        else embed
    | None => embed
    end in
  let embed :=
    match thumbnail_url with
    | Some u => if truthy u then Dict.set embed (lit "thumbnail") (JDict [(lit "url", JStr u)]) else embed
    | None => embed
    end in
  let footer_content :=
    match footer_text with
    | Some f => if truthy f then f else lit "Release Announcement"
    | None => lit "Release Announcement"
    end in
  Dict.set embed (lit "footer") (JDict [(lit "text", JStr footer_content)]).

(** ** Tool implementations *)

(** [d[k]] on a [dict]. *)
Definition getitem (d : Dict.t value) (k : str) : M value :=
  match Dict.get d k with
  | Some v => ret v
  | None => raise (Exn OtherException (lit "KeyError") (repr_str k))
  end.

(** [v[k]] on a loaded value. *)
Definition value_getitem (v : value) (k : str) : M value :=
  match v with
  | JDict d => getitem d k
  | _ => raise (Exn OtherException (lit "TypeError") [])
  end.

(** [result.get('error', 'Unknown error')] *)
Definition get_error (result : value) : value :=
  match result with
  | JDict d =>
      match Dict.get d (lit "error") with
      | Some v => v
      | None => JStr (lit "Unknown error")
      end
  | _ => JStr (lit "Unknown error")
  end.

Definition format_is_json (f : ResponseFormat) : bool :=
  match f with JSON => true | MARKDOWN => false end.

Definition discord_send_message (params : SendMessageInput) : env -> world -> str * world :=
  tool
    (webhook_url <- _get_webhook_url (sm_webhook_name params) ;;
     if negb (option_truthy webhook_url) then
       webhooks <- _load_webhooks ;;
       let available := Dict.keys webhooks in
       match available with
       | _ :: _ =>
           ret (lit "Error: Webhook '" ++ sm_webhook_name params ++
                lit "' not found. Available webhooks: " ++ join (lit ", ") available ++
                lit ". Use discord_add_webhook to add a new one.")
       | [] =>
           ret (lit "Error: Webhook '" ++ sm_webhook_name params ++
                lit "' not found. No webhooks configured. Use discord_add_webhook to add one first.")
       end
     else
       let webhook_url := match webhook_url with Some u => u | None => [] end in
       result <- _send_webhook_message webhook_url
                   (Some (sm_content params)) (sm_username params) (sm_avatar_url params) None ;;
       if format_is_json (sm_response_format params) then
         ret (dumps result)
       else
         success <- value_getitem result (lit "success") ;;
         if value_truthy success then
           ret (lit "Message sent successfully to '" ++ sm_webhook_name params ++ lit "' webhook.")
         else
           ret (lit "Error: Failed to send message. " ++ to_str (get_error result)))
    _handle_error.

(** The preview of a sent embed: title, description, and every field. *)
Fixpoint preview_fields (fields : list value) : M (list str) :=
  match fields with
  | [] => ret []
  | f :: rest =>
      n <- value_getitem f (lit "name") ;;
      v <- value_getitem f (lit "value") ;;
      more <- preview_fields rest ;;
      ret ([lit "**" ++ to_str n ++ lit "**"; to_str v; []] ++ more)
  end.

Definition too_long_message (announcement : str) : str :=
  lit "Error: Announcement is too long (" ++ str_of_int (Z.of_nat (len announcement)) ++
  lit " chars). Discord limit is " ++ str_of_int (Z.of_nat DISCORD_MESSAGE_LIMIT) ++
  lit " characters. Reduce the number of changes or shorten descriptions.".

Definition discord_send_announcement (params : SendAnnouncementInput) : env -> world -> str * world :=
  tool
    (webhook_url <- _get_webhook_url (webhook_name params) ;;
     if negb (option_truthy webhook_url) then
       webhooks <- _load_webhooks ;;
       let available := Dict.keys webhooks in
       match available with
       | _ :: _ =>
           ret (lit "Error: Webhook '" ++ webhook_name params ++
                lit "' not found. Available webhooks: " ++ join (lit ", ") available)
       | [] =>
           ret (lit "Error: Webhook '" ++ webhook_name params ++
                lit "' not found. No webhooks configured. Use discord_add_webhook first.")
       end
     else
       let webhook_url := match webhook_url with Some u => u | None => [] end in
       if use_embed params then
         let thumbnail :=
           if option_truthy (thumbnail_url params) then thumbnail_url params
           else Some LIVING_LANDS_LOGO_URL in
         fun en =>
         (let embed :=
            _build_announcement_embed (utcnow en)
              (version params) (headline params) (changes params) (download_url params)
              (style params) (beta_warning params) (embed_color params) thumbnail
              (footer_text params) in
          result <- _send_webhook_message webhook_url None (username params) None
                      (Some [JDict embed]) ;;
          if format_is_json (response_format params) then
            ret (dumps (JDict [ (lit "result", result);
                                (lit "embed", JDict embed);
                                (lit "format", JStr (lit "embed")) ]))
          else
            success <- value_getitem result (lit "success") ;;
            if value_truthy success then
              title <- getitem embed (lit "title") ;;
              description <- getitem embed (lit "description") ;;
              fields <- preview_fields
                          match Dict.get embed (lit "fields") with
                          | Some (JList fields) => fields
                          | _ => []
                          end ;;
              let preview_lines := [lit "**" ++ to_str title ++ lit "**"; to_str description; []] ++ fields in
              let preview := join nl preview_lines in
              ret (lit "Embed announcement sent successfully!" ++ nl ++ nl ++
                   lit "**Preview:**" ++ nl ++ preview)
            else
              ret (lit "Error: Failed to send announcement. " ++ to_str (get_error result))) en
       else
         let announcement :=
           _format_announcement (version params) (headline params) (changes params)
             (download_url params) (style params) (beta_warning params) in
         if DISCORD_MESSAGE_LIMIT <? len announcement then
           ret (too_long_message announcement)
         else
           result <- _send_webhook_message webhook_url (Some announcement) (username params)
                       None None ;;
           if format_is_json (response_format params) then
             ret (dumps (JDict [ (lit "result", result);
                                 (lit "announcement_preview", JStr announcement);
                                 (lit "character_count", JInt (Z.of_nat (len announcement)));
                                 (lit "format", JStr (lit "plain_text")) ]))
           else
             success <- value_getitem result (lit "success") ;;
             if value_truthy success then
               ret (lit "Announcement sent successfully!" ++ nl ++ nl ++ lit "**Preview:**" ++ nl ++
                    lit "```" ++ nl ++ announcement ++ nl ++ lit "```")
             else
               ret (lit "Error: Failed to send announcement. " ++ to_str (get_error result)))
    _handle_error.

Definition discord_add_webhook (params : AddWebhookInput) : env -> world -> str * world :=
  tool
    (webhooks <- _load_webhooks ;;
     let is_update := Dict.has webhooks (name params) in
     fun en =>
     (let webhooks :=
        Dict.set webhooks (name params)
          (Entry (Some (url params)) (Some (description params)) (Some (now en))) in
      _ <- _save_webhooks webhooks ;;
      let action := if is_update then lit "updated" else lit "added" in
      ret (lit "Webhook '" ++ name params ++ lit "' " ++ action ++
           lit " successfully. You can now use it with discord_send_message or discord_send_announcement.")) en)
    (fun e => lit "Error: Failed to save webhook configuration: " ++ exn_text e).

Definition discord_remove_webhook (params : RemoveWebhookInput) : env -> world -> str * world :=
  tool
    (webhooks <- _load_webhooks ;;
     let name_lower := lower (rm_name params) in
     if negb (Dict.has webhooks name_lower) then
       let available := Dict.keys webhooks in
       match available with
       | _ :: _ =>
           ret (lit "Error: Webhook '" ++ rm_name params ++
                lit "' not found. Available webhooks: " ++ join (lit ", ") available)
       | [] =>
           ret (lit "Error: Webhook '" ++ rm_name params ++
                lit "' not found. No webhooks configured.")
       end
     else
       let webhooks := Dict.del webhooks name_lower in
       _ <- _save_webhooks webhooks ;;
       ret (lit "Webhook '" ++ rm_name params ++ lit "' removed successfully."))
    (fun e => lit "Error: Failed to remove webhook: " ++ exn_text e).

(** [f"...{url[-8:]}" if len(url) > 8 else url] *)
Definition url_hint_of (url : str) : str :=
  if 8 <? len url then lit "..." ++ last_chars 8 url else url.

Definition opt_str_json (o : option str) : value :=
  match o with Some s => JStr s | None => JNull end.

(** The entry of one webhook in the JSON listing. *)
Definition sanitized_entry (config : entry) : value :=
  let url := match entry_url config with Some u => u | None => [] end in
  let url_hint := url_hint_of url in
  JDict [ (lit "description",
           match entry_description config with
           | Some d => opt_str_json d
           | None => JNull
           end);
          (lit "url_hint", JStr url_hint);
          (lit "added_at", opt_str_json (entry_added_at config)) ].

(** The lines of one webhook in the markdown listing. *)
Definition markdown_entry (name : str) (config : entry) : list str :=
  let url := match entry_url config with Some u => u | None => [] end in
  let url_hint := url_hint_of url in
  let desc :=
    match entry_description config with
    | Some (Some d) => d
    | Some None => lit "None"
    | None => lit "No description"
    end in
  let added :=
    match entry_added_at config with
    | Some a => a
    | None => lit "Unknown"
    end in
  [ lit "## " ++ name;
    lit "- **Description**: " ++ desc;
    lit "- **URL hint**: `" ++ url_hint ++ lit "`";
    lit "- **Added**: " ++ added;
    [] ].

Definition discord_list_webhooks (params : ListWebhooksInput) : env -> world -> str * world :=
  tool
    (webhooks <- _load_webhooks ;;
     match webhooks with
     | [] => ret (lit "No webhooks configured. Use discord_add_webhook to add one.")
     | _ :: _ =>
         if format_is_json (ls_response_format params) then
           let sanitized :=
             fold_left (fun sanitized item => Dict.set sanitized (fst item) (sanitized_entry (snd item)))
                       webhooks [] in
           ret (dumps (JDict sanitized))
         else
           let lines := [lit "# Configured Discord Webhooks"; []] in
           let lines :=
             fold_left (fun lines item => lines ++ markdown_entry (fst item) (snd item))
                       webhooks lines in
           ret (join nl lines)
     end)
    (fun e => lit "Error: Failed to list webhooks: " ++ exn_text e).

(** ** The tool boundary

    A call whose arguments do not validate is answered with the validation
    errors and the tool body does not run. *)

Inductive tool_result :=
| Returned (text : str)
| Rejected (errors : list (str * validation_error)).

Definition call_discord_add_webhook (raw_name raw_url : str) (raw_description : option str)
  : env -> world -> tool_result * world :=
  fun en w =>
    match validate_AddWebhookInput raw_name raw_url raw_description with
    | inl errors => (Rejected errors, w)
    | inr params =>
        let (text, w') := discord_add_webhook params en w in (Returned text, w')
    end.

End WithUnicode.

(** ** Vocabulary of the statements *)

(** The registry that [_load_webhooks] returns for a file it can load. *)
Definition loaded (f : file_state) : registry :=
  match f with
  | Stored doc => doc
  | _ => []
  end.

(** The error text that a failed dispatch reports for a response: the
    [message] member of a JSON object, else the raw body; [None] when the
    body is JSON but not an object, or [json()] raises something else than a
    [ValueError]. *)
Definition error_of_body (resp : response) : option value :=
  match json resp with
  | Ok (JDict members) =>
      Some match Dict.get members (lit "message") with
           | Some v => v
           | None => JStr (text resp)
           end
  | Ok _ => None
  | Raise e => if is_JSONDecodeError_or_ValueError e then Some (JStr (text resp)) else None
  end.

(** The result record of a failed dispatch. *)
Definition failure (status : Z) (error : value) : value :=
  JDict [ (lit "success", JBool false);
          (lit "status_code", JInt status);
          (lit "error", error) ].

(** A code point that a normalised webhook name may not hold: an ASCII one
    outside [a-z0-9_], or one outside ASCII that [isalnum] refuses. *)
Definition refused_in_name {U : UnicodeData} (c : N) : bool :=
  if is_ascii c then negb (ascii_lower c || ascii_digit c || (c =? 95)%N)
  else negb (ucd_alnum c).

(** A hexadecimal digit, and the number that a text of such digits
    denotes. *)
Definition is_hex_digit (c : N) : bool :=
  match hex_value c with Some _ => true | None => false end.

Definition hex_number (digits : str) : Z :=
  fold_left
    (fun acc c => (16 * acc + Z.of_N match hex_value c with Some d => d | None => 0%N end)%Z)
    digits 0%Z.

(** The colour that the embed of an announcement carries. *)
Definition colour_of (embed : Dict.t value) : option value := Dict.get embed (lit "color").

(** Two stored URLs that the listing cannot tell apart: the same URL, or
    two URLs that end in the same 8 code points after non-empty heads. *)
Definition same_tail (u1 u2 : option str) : Prop :=
  u1 = u2
  \/ exists head1 head2 tail,
       u1 = Some (head1 ++ tail) /\ u2 = Some (head2 ++ tail)
       /\ len tail = 8 /\ head1 <> [] /\ head2 <> [].

(** Two registries with the same names, descriptions and timestamps, in the
    same order, whose URLs differ at most before their last 8 code points. *)
Definition differ_before_tails (r1 r2 : registry) : Prop :=
  Forall2
    (fun a b =>
       fst a = fst b
       /\ entry_description (snd a) = entry_description (snd b)
       /\ entry_added_at (snd a) = entry_added_at (snd b)
       /\ same_tail (entry_url (snd a)) (entry_url (snd b)))
    r1 r2.

(** A computation that neither writes the registry file nor sends a
    request. *)
Definition keeps_world {A} (m : M A) : Prop :=
  forall en w, snd (m en w) = w.

(** The result record of a delivered message. *)
Definition delivered (status : Z) (extra : Dict.t value) : value :=
  JDict ([ (lit "success", JBool true);
           (lit "status_code", JInt status);
           (lit "message", JStr (lit "Message sent successfully")) ] ++ extra).

(** A run that leaves the registry file alone and sends at most one
    request. *)
Definition sends_at_most_one (before after : world) : Prop :=
  file after = file before
  /\ exists sent, posts after = posts before ++ sent /\ List.length sent <= 1.

(** The fields of an embed, in the order the builder appends them. *)
Definition expected_fields (changes : list str) (download_url : option str)
    (beta_warning : bool) : list value :=
  (match changes with
   | [] => []
   | _ :: _ =>
       [field (lit "What's New")
              (join nl (map (fun change => arrow ++ lit " " ++ change) changes))]
   end) ++
  (if beta_warning
   then [field ([9888%N; 65039%N] ++ lit " Warning")
               (lit "This is a **beta release**. Back up your world before updating!")]
   else []) ++
  (match download_url with
   | Some (c :: u) =>
       [field (link_emoji ++ lit " Download") (lit "[Get it here](" ++ c :: u ++ lit ")")]
   | _ => []
   end).

(** The file does not make [_load_webhooks] raise. *)
Definition loadable (f : file_state) : Prop :=
  match f with
  | Undecodable _ => False
  | _ => True
  end.

End Discord.

(* ================================================================== *)
(** * Concrete inputs *)
(* ================================================================== *)

(** ** The Unicode database for the first 256 code points

    An instance that tabulates U+0080 to U+00FF as the Unicode Character
    Database has them, for running the server on concrete inputs.  It knows
    no letter, digit or space beyond U+00FF. *)

Module Latin1.

Import Py.

Local Open Scope N_scope.

Definition in_range (lo hi c : N) : bool := (lo <=? c) && (c <=? hi).

(** U+00C0 to U+00DE, without the multiplication sign U+00D7. *)
Definition capital (c : N) : bool := in_range 192 222 c && negb (c =? 215).

Definition lower_cp (c : N) : str := [if capital c then c + 32 else c].

Definition alnum (c : N) : bool :=
  mem c [170; 178; 179; 181; 185; 186; 188; 189; 190]
  || in_range 192 214 c || in_range 216 246 c || in_range 248 255 c.

Definition space (c : N) : bool := (c =? 133) || (c =? 160).

Definition printable (c : N) : bool := in_range 161 255 c && negb (c =? 173).

Lemma lower_cp_sane c x :
  128 <= c -> In x (lower_cp c) -> x <> 32 /\ ascii_upper x = false.
Proof.
  unfold lower_cp, ascii_upper. intros Hc [<- | []].
  destruct (capital c); split; try lia.
  - rewrite andb_false_iff. right. apply N.leb_gt. lia.
  - rewrite andb_false_iff. right. apply N.leb_gt. lia.
Qed.

Definition data : UnicodeData := {|
  ucd_lower := lower_cp;
  ucd_final_sigma := fun _ _ => false;
  ucd_alnum := alnum;
  ucd_space := space;
  ucd_decimal := fun _ => None;
  ucd_printable := printable;
  ucd_lower_sane := lower_cp_sane
|}.

End Latin1.

Module Examples.

Import Py.
Import Json.
Import Discord.

(** A webhook URL of the shape Discord hands out (78 code points). *)
Definition releases_url : str :=
  lit "https://discord.com/api/webhooks/123456789012345678/abcdefghijklmnopqrstuvwxyz".

Definition no_content : response :=
  Response 204 [] (Raise (Exn JSONDecodeError (lit "JSONDecodeError") (lit "Expecting value"))).

(** A peer that accepts every message, a writable disk, a fixed clock. *)
Definition calm : env :=
  Env (fun _ _ => Ok no_content)
      (lit "2024-05-01T12:00:00.000000") (lit "2024-05-01T10:00:00.000000") None.

(** A peer that answers every request with [resp]. *)
Definition answering (resp : response) : env :=
  Env (fun _ _ => Ok resp)
      (lit "2024-05-01T12:00:00.000000") (lit "2024-05-01T10:00:00.000000") None.



Definition hello : SendMessageInput :=
  {| sm_webhook_name := lit "releases"; sm_content := lit "hello";
     sm_username := None; sm_avatar_url := None; sm_response_format := MARKDOWN |}.

(** A plain-text announcement of more than 2000 code points. *)
Definition long_plain : SendAnnouncementInput :=
  {| webhook_name := lit "releases"; version := lit "v2.0"; headline := lit "News";
     changes := [repeat 97%N 2000]; download_url := None; style := RELEASE;
     beta_warning := false; use_embed := false; embed_color := None;
     thumbnail_url := None; footer_text := None; username := None;
     response_format := MARKDOWN |}.

(** The same announcement as a rich card. *)
Definition long_embed : SendAnnouncementInput :=
  {| webhook_name := lit "releases"; version := lit "v2.0"; headline := lit "News";
     changes := [repeat 97%N 2000]; download_url := None; style := RELEASE;
     beta_warning := false; use_embed := true; embed_color := None;
     thumbnail_url := None; footer_text := None; username := None;
     response_format := MARKDOWN |}.

(** Registries as a hand-edited file may hold them: a URL of 8 code points
    and one of 9 that ends in it. *)
Definition short_url : registry := [(lit "a", Entry (Some (lit "abcdefgh")) None None)].
Definition longer_url : registry := [(lit "a", Entry (Some (lit "Xabcdefgh")) None None)].

(** Two registries whose URLs share their last 8 code points. *)
Definition one_url : registry :=
  [(lit "releases", Entry (Some releases_url) (Some None) (Some (lit "2024-05-01T12:00:00.000000")))].
Definition other_url : registry :=
  [(lit "releases",
    Entry (Some (lit "https://discordapp.com/api/webhooks/876543210987654321/zyxwvutsrqponmlkjistuvwxyz"))
          (Some None) (Some (lit "2024-05-01T12:00:00.000000")))].

Definition fresh : world := World Missing [].

(** A registry holding the webhook [releases]. *)
Definition with_releases : world :=
  World (Stored [(lit "releases",
                  Entry (Some releases_url) (Some None) (Some (lit "2024-05-01T12:00:00.000000")))])
        [].

(** A disk that refuses the write of the registry file. *)
Definition read_only : env :=
  Env (fun _ _ => Ok no_content)
      (lit "2024-05-01T12:00:00.000000") (lit "2024-05-01T10:00:00.000000")
      (Some (Exn OSError (lit "PermissionError") (lit "[Errno 13] Permission denied"))).

(** A second webhook, not in [with_releases]. *)
Definition beta_hook : AddWebhookInput :=
  {| name := lit "beta";
     url := lit "https://discordapp.com/api/webhooks/876543210987654321/zyxwvutsrqponmlkjihgfedcba";
     description := Some (lit "beta testers") |}.

(** A peer that does not answer in time. *)
Definition silent : env :=
  Env (fun _ _ => Raise (Exn TimeoutException (lit "ReadTimeout") []))
      (lit "2024-05-01T12:00:00.000000") (lit "2024-05-01T10:00:00.000000") None.


(** A gateway error whose body is a JSON list. *)
Definition bad_gateway : response :=
  Response 502 (lit "[]") (Ok (JList [])).

(** A valid URL between two blanks, and a prefix followed by 17 blanks:
    50 code points as given, 33 once stripped. *)
Definition padded_url : str := lit " " ++ releases_url ++ lit " ".
Definition blank_tailed_url : str :=
  lit "https://discord.com/api/webhooks/" ++ repeat 32%N 17.

(** A plain-text announcement within the limit. *)
Definition short_plain : SendAnnouncementInput :=
  {| webhook_name := lit "releases"; version := lit "v2.0"; headline := lit "News";
     changes := [lit "-> faster"]; download_url := None; style := HOTFIX;
     beta_warning := false; use_embed := false; embed_color := None;
     thumbnail_url := None; footer_text := None; username := None;
     response_format := MARKDOWN |}.

End Examples.

(* ================================================================== *)
(** * Properties *)
(* ================================================================== *)

Import Py.
Import Json.
Import Discord.

#[global] Arguments lit : simpl never.

Unset Implicit Arguments.

(** ** Strings and dictionaries *)

Lemma str_eqb_eq (a b : str) : str_eqb a b = true <-> a = b.
Proof.
  revert b. induction a as [|x a IH]; intros [|y b]; cbn; try (split; congruence).
  rewrite andb_true_iff, N.eqb_eq, IH. split.
  - intros [-> ->]. reflexivity.
  - intros [= -> ->]. auto.
Qed.

Lemma str_eqb_refl (a : str) : str_eqb a a = true.
Proof. apply str_eqb_eq. reflexivity. Qed.

Lemma str_eqb_neq (a b : str) : a <> b -> str_eqb a b = false.
Proof.
  intros H. destruct (str_eqb a b) eqn:E; [|reflexivity].
  apply str_eqb_eq in E. contradiction.
Qed.

Lemma get_set_same V (d : Dict.t V) k v : Dict.get (Dict.set d k v) k = Some v.
Proof.
  induction d as [|[k' v'] d IH]; cbn.
  - rewrite str_eqb_refl. reflexivity.
  - destruct (str_eqb k' k) eqn:E; cbn.
    + rewrite str_eqb_refl. reflexivity.
    + rewrite E. exact IH.
Qed.

Lemma get_set_other V (d : Dict.t V) k k' v :
  k <> k' -> Dict.get (Dict.set d k v) k' = Dict.get d k'.
Proof.
  intros Hk. induction d as [|[k0 v0] d IH]; cbn.
  - rewrite (str_eqb_neq _ _ Hk). reflexivity.
  - destruct (str_eqb k0 k) eqn:E; cbn.
    + apply str_eqb_eq in E. subst k0. rewrite (str_eqb_neq _ _ Hk). reflexivity.
    + destruct (str_eqb k0 k'); [reflexivity | exact IH].
Qed.

Lemma get_del_same V (d : Dict.t V) k : Dict.get (Dict.del d k) k = None.
Proof.
  unfold Dict.del. induction d as [|[k' v'] d IH]; cbn; [reflexivity|].
  destruct (str_eqb k' k) eqn:E; cbn; [exact IH|].
  rewrite E. exact IH.
Qed.

Lemma startswith_app (p s : str) : startswith (p ++ s) p = true.
Proof.
  induction p as [|c p IH]; cbn; [reflexivity|].
  rewrite N.eqb_refl. exact IH.
Qed.

Lemma replace_one_absent (c : N) (new s : str) :
  ~ In c s -> replace s [c] new = s.
Proof.
  cbn. induction s as [|x s IH]; intros Hc; cbn; [reflexivity|].
  destruct (N.eqb_spec c x) as [->|Hne].
  - exfalso. apply Hc. left. reflexivity.
  - cbn. f_equal. apply IH. intros H. apply Hc. right. exact H.
Qed.

Section Lower.

Context {U : UnicodeData}.

Lemma lower_cp_no_blank c x : c <> 32%N -> In x (lower_cp c) -> x <> 32%N.
Proof.
  unfold lower_cp, is_ascii, ascii_upper. intros Hc.
  destruct (N.ltb_spec c 128) as [Hlt|Hge].
  - intros [<- | []].
    destruct (65 <=? c)%N eqn:E; cbn [andb]; [|exact Hc].
    apply N.leb_le in E. destruct (c <=? 90)%N; lia.
  - intros Hx. apply (@ucd_lower_sane _ c x Hge Hx).
Qed.

Lemma lower_from_no_blank (s before : str) :
  ~ In 32%N s -> ~ In 32%N (lower_from before s).
Proof.
  revert before. induction s as [|c s IH]; intros before Hs; cbn; [tauto|].
  intros Hin. apply in_app_or in Hin. destruct Hin as [Hin|Hin].
  - destruct (N.eqb_spec c 931) as [->|Hne].
    + destruct Hin as [Hin|[]].
      destruct (ucd_final_sigma before s); discriminate.
    + apply (lower_cp_no_blank c 32%N); auto.
      intros ->. apply Hs. left. reflexivity.
  - apply (IH (c :: before)); auto. intros H. apply Hs. right. exact H.
Qed.

(** A name without blanks is stored under its lowercase form. *)
Lemma validate_name_without_blank (v k : str) :
  ~ In 32%N v -> validate_name v = inr k -> k = lower v.
Proof.
  unfold validate_name. intros Hv.
  assert (Hr : replace (lower v) (lit " ") (lit "_") = lower v).
  { change (lit " ") with [32%N]. apply replace_one_absent.
    apply lower_from_no_blank. exact Hv. }
  rewrite Hr.
  destruct (negb (isalnum (replace (lower v) (lit "_") []))); [discriminate|].
  intros [= <-]. reflexivity.
Qed.

End Lower.

(** ** The registry *)

Section Registry.

Context {U : UnicodeData}.

Lemma load_webhooks_cases en w :
  _load_webhooks en w =
    match file w with
    | Undecodable why => (Raise (Exn ValueError (lit "UnicodeDecodeError") why), w)
    | f => (Ok (loaded f), w)
    end.
Proof. unfold _load_webhooks. destruct w as [[] ps]; reflexivity. Qed.

Lemma load_webhooks_loadable en w :
  loadable (file w) -> _load_webhooks en w = (Ok (loaded (file w)), w).
Proof.
  intros H. rewrite load_webhooks_cases. destruct (file w); try reflexivity.
  destruct H.
Qed.

(** What [discord_add_webhook] leaves on disk when the file loads and can be
    written. *)
Lemma add_webhook_world params en w :
  open_for_writing en = None -> loadable (file w) ->
  snd (discord_add_webhook params en w) =
    World (Stored (Dict.set (loaded (file w)) (name params)
                     (Entry (Some (url params)) (Some (description params)) (Some (now en)))))
          (posts w).
Proof.
  intros Hw Hl. unfold discord_add_webhook, tool, bind.
  rewrite (load_webhooks_loadable en w Hl).
  unfold _save_webhooks. rewrite Hw. reflexivity.
Qed.

(** Looking a name up in a stored registry. *)
Lemma get_webhook_url_stored key en doc ps :
  _get_webhook_url key en (World (Stored doc) ps) =
    (Ok match Dict.get doc (lower key) with
        | Some e => if entry_truthy e then entry_url e else None
        | None => None
        end, World (Stored doc) ps).
Proof. reflexivity. Qed.

(** After a successful add, the URL is found under every name whose
    lowercase form is the stored key. *)
Lemma add_then_get params key en en' w :
  open_for_writing en = None -> loadable (file w) ->
  lower key = name params ->
  let w' := snd (discord_add_webhook params en w) in
  _get_webhook_url key en' w' = (Ok (Some (url params)), w').
Proof.
  intros Hw Hl Hk w'. subst w'. rewrite (add_webhook_world params en w Hw Hl).
  rewrite get_webhook_url_stored, Hk, get_set_same. reflexivity.
Qed.

(** Looking a name up in any file that loads. *)
Lemma get_webhook_url_loadable key en w :
  loadable (file w) ->
  _get_webhook_url key en w =
    (Ok match Dict.get (loaded (file w)) (lower key) with
        | Some e => if entry_truthy e then entry_url e else None
        | None => None
        end, w).
Proof.
  intros Hl. unfold _get_webhook_url, bind.
  rewrite (load_webhooks_loadable en w Hl). reflexivity.
Qed.

(** X1.  A name without blanks that add-webhook accepts is found again
    under that same name, whatever its case. *)
Lemma add_then_get_same_name (v : str) params en en' w :
  ~ In 32%N v -> validate_name v = inr (name params) ->
  open_for_writing en = None -> loadable (file w) ->
  let w' := snd (discord_add_webhook params en w) in
  _get_webhook_url v en' w' = (Ok (Some (url params)), w').
Proof.
  intros Hv Hn Hw Hl. apply add_then_get; auto.
  symmetry. apply validate_name_without_blank; assumption.
Qed.

(** X2.  After remove-webhook, the name is not found: whether the webhook
    was there or not. *)
Lemma remove_then_get name en en' w :
  open_for_writing en = None -> loadable (file w) ->
  let w' := snd (discord_remove_webhook {| rm_name := name |} en w) in
  _get_webhook_url name en' w' = (Ok None, w').
Proof.
  intros Hw Hl w'. subst w'.
  unfold discord_remove_webhook, tool, bind. cbn [rm_name].
  rewrite (load_webhooks_loadable en w Hl).
  unfold Dict.has.
  destruct (Dict.get (loaded (file w)) (lower name)) as [e|] eqn:E; cbn [negb].
  - unfold _save_webhooks, ret. rewrite Hw. cbn [snd].
    rewrite get_webhook_url_stored, get_del_same. reflexivity.
  - assert (Hsame : forall m1 m2 : str,
              snd (match Dict.keys (loaded (file w)) with
                   | [] => ret m1 en w
                   | _ :: _ => ret m2 en w
                   end) = w).
    { intros. destruct (Dict.keys (loaded (file w))); reflexivity. }
    match goal with
    | |- context [match ?k with [] => ret ?a | _ :: _ => ret ?b end en w] =>
        replace (match k with [] => ret a | _ :: _ => ret b end en w)
          with (Ok (match k with [] => a | _ :: _ => b end), w)
          by (destruct k; reflexivity)
    end.
    cbn [snd]. rewrite (get_webhook_url_loadable name en' w Hl), E. reflexivity.
Qed.

End Registry.

Lemma add_then_get_same_name_witness :
  @_get_webhook_url Latin1.data (lit "Releases") Examples.calm
      (snd (discord_add_webhook
              {| name := lit "releases"; url := Examples.releases_url; description := None |}
              Examples.calm Examples.fresh))
    = (Ok (Some Examples.releases_url),
       snd (discord_add_webhook
              {| name := lit "releases"; url := Examples.releases_url; description := None |}
              Examples.calm Examples.fresh)).
Proof.
  apply (@add_then_get_same_name Latin1.data (lit "Releases")
           {| name := lit "releases"; url := Examples.releases_url; description := None |}
           Examples.calm Examples.calm Examples.fresh).
  - intros H. vm_compute in H. repeat (destruct H as [H|H]; [discriminate H|]). exact H.
  - reflexivity.
  - reflexivity.
  - exact I.
Defined.

Lemma remove_then_get_witness :
  @_get_webhook_url Latin1.data (lit "Releases") Examples.calm
      (snd (@discord_remove_webhook Latin1.data {| rm_name := lit "Releases" |}
              Examples.calm Examples.with_releases))
    = (Ok None, World (Stored []) []).
Proof.
  apply (@remove_then_get Latin1.data (lit "Releases") Examples.calm Examples.calm
           Examples.with_releases eq_refl I).
Defined.

(** ** C1: a name with a blank is stored under another key than it is
    looked up by *)

(** C1.  The name ["my hook"] is valid for add-webhook, which stores its URL
    under ["my_hook"]; looking up ["my hook"] afterwards finds nothing,
    while ["my_hook"] finds the URL. *)
Theorem C1_blank_in_name_defeats_lookup :
  forall U : UnicodeData,
  exists params,
    validate_AddWebhookInput (lit "my hook") Examples.releases_url None = inr params /\
    name params = lit "my_hook" /\
    let w' := snd (discord_add_webhook params Examples.calm Examples.fresh) in
    _get_webhook_url (lit "my hook") Examples.calm w' = (Ok None, w') /\
    _get_webhook_url (lit "my_hook") Examples.calm w' = (Ok (Some Examples.releases_url), w').
Proof.
  intros U. eexists. split; [vm_compute; reflexivity|].
  split; [reflexivity|]. split; vm_compute; reflexivity.
Qed.

(** ** Dispatch *)

Section Dispatch.

Context {U : UnicodeData}.

(** A dispatch that the peer answers with a status other than 204 and 200
    returns the failure record built from the body. *)
Lemma send_webhook_message_failure url content username avatar_url embeds en w resp v :
  http_post en (posts w)
    (Request url (JDict (payload_of content username avatar_url embeds))) = Ok resp ->
  status_code resp <> 204%Z -> status_code resp <> 200%Z ->
  error_of_body resp = Some v ->
  _send_webhook_message url content username avatar_url embeds en w =
    (Ok (failure (status_code resp) v),
     World (file w)
       (posts w ++ [Request url (JDict (payload_of content username avatar_url embeds))])).
Proof.
  intros Hpost H204 H200 Hbody.
  unfold _send_webhook_message, bind, post. rewrite Hpost.
  apply Z.eqb_neq in H204, H200. rewrite H204, H200.
  unfold try_except, bind, response_json, error_of_body in *.
  destruct (json resp) as [j|e].
  - destruct j; try discriminate. injection Hbody as <-. reflexivity.
  - unfold raise. destruct (is_JSONDecodeError_or_ValueError e); [|discriminate].
    injection Hbody as <-. reflexivity.
Qed.



End Dispatch.

(** ** C2: the text of a failed dispatch *)




(** ** C3: the arrow of a change *)

(** A text without [old] is left as it is. *)
Lemma replace_from_absent (old new s : str) :
  contains s old = false -> replace_from 0 old new s = s.
Proof.
  induction s as [|c s IH]; cbn [replace_from contains]; [reflexivity|].
  intros H. apply orb_false_iff in H. destruct H as [H1 H2].
  rewrite H1. f_equal. apply IH. exact H2.
Qed.

(** X4.  A change that begins with neither arrow gets the arrow glyph and a
    blank in front and is otherwise unchanged. *)
Lemma change_line_adds_arrow (change : str) :
  startswith change arrow = false -> startswith change (lit "->") = false ->
  change_line change = arrow ++ lit " " ++ change.
Proof. unfold change_line. intros -> ->. reflexivity. Qed.

(** X5.  A leading [->] becomes the arrow glyph; the rest is unchanged when
    it holds no further [->]. *)
Lemma change_line_replaces_leading_arrow (rest : str) :
  contains rest (lit "->") = false ->
  change_line (lit "->" ++ rest) = arrow ++ rest.
Proof.
  intros H. unfold change_line.
  replace (startswith (lit "->" ++ rest) (lit "->")) with true
    by (symmetry; apply startswith_app).
  rewrite andb_false_r.
  change (lit "->") with [45%N; 62%N] in *.
  cbn -[contains]. f_equal. apply replace_from_absent. exact H.
Qed.

Lemma change_line_adds_arrow_witness :
  change_line (lit "Fixed bug") = arrow ++ lit " " ++ lit "Fixed bug".
Proof. apply change_line_adds_arrow; reflexivity. Defined.

Lemma change_line_replaces_leading_arrow_witness :
  change_line (lit "->" ++ lit " Added feature") = arrow ++ lit " Added feature".
Proof. apply change_line_replaces_leading_arrow; reflexivity. Defined.

(** C3.  The branch for a change that already begins with an arrow replaces
    every [->] of the change, not the leading one alone: ["-> a -> b"] gives
    the arrow glyph, [" a "], the arrow glyph, [" b"]; and a change that
    begins with the arrow glyph has its later [->] replaced as well. *)
Theorem C3_every_ascii_arrow_is_replaced :
  change_line (lit "-> a -> b") = arrow ++ lit " a " ++ arrow ++ lit " b"
  /\ change_line (lit "-> a -> b") <> arrow ++ lit " a -> b"
  /\ change_line (arrow ++ lit " x -> y") = arrow ++ lit " x " ++ arrow ++ lit " y"
  /\ _format_announcement (lit "v1") (lit "News") [lit "-> a -> b"] None RELEASE false
     = emoji_map RELEASE ++ lit " **v1** is live!" ++ nl ++ nl ++ lit "News" ++ nl ++ nl ++
       arrow ++ lit " a " ++ arrow ++ lit " b".
Proof.
  repeat split; try (vm_compute; reflexivity).
  vm_compute. discriminate.
Qed.

(** ** C8: loading the registry *)

(** X3.  [_load_webhooks] gives the empty registry for a missing file, for
    one that cannot be opened and for one that is not JSON, and the stored
    document otherwise; it leaves the world as it is. *)
Lemma load_webhooks_empty en ps :
  _load_webhooks en (World Missing ps) = (Ok [], World Missing ps)
  /\ (forall why, _load_webhooks en (World (Unopenable why) ps) = (Ok [], World (Unopenable why) ps))
  /\ (forall why, _load_webhooks en (World (Malformed why) ps) = (Ok [], World (Malformed why) ps))
  /\ (forall doc, _load_webhooks en (World (Stored doc) ps) = (Ok doc, World (Stored doc) ps)).
Proof. repeat split. Qed.

(** C8.  A registry file whose bytes are not text in the encoding that
    [open] uses makes [_load_webhooks] raise: the [UnicodeDecodeError] of
    the read is neither a [JSONDecodeError] nor an [IOError], so the
    [except] clause lets it pass, and list-webhooks reports it instead of an
    empty registry. *)
Theorem C8_undecodable_file_makes_load_raise en why ps :
  _load_webhooks en (World (Undecodable why) ps)
    = (Raise (Exn ValueError (lit "UnicodeDecodeError") why), World (Undecodable why) ps)
  /\ (forall params,
        discord_list_webhooks params en (World (Undecodable why) ps)
          = (lit "Error: Failed to list webhooks: " ++ why, World (Undecodable why) ps)).
Proof. split; reflexivity. Qed.

(** ** C5: the URL of add-webhook *)

Lemma check_length_spec (lo hi : nat) (v : str) :
  (check_length lo hi v = inr v /\ lo <= len v <= hi)
  \/ ((exists e, check_length lo hi v = inl e) /\ ~ (lo <= len v <= hi)).
Proof.
  unfold check_length.
  destruct (Nat.ltb_spec (len v) lo); [right; split; [eauto | lia]|].
  destruct (Nat.ltb_spec hi (len v)); [right; split; [eauto | lia]|].
  left. split; [reflexivity | lia].
Qed.

Lemma validate_webhook_url_spec (v : str) :
  let ok := startswith v (lit "https://discord.com/api/webhooks/")
            || startswith v (lit "https://discordapp.com/api/webhooks/") in
  (ok = true /\ validate_webhook_url v = inr v)
  \/ (ok = false /\ exists e, validate_webhook_url v = inl e).
Proof.
  unfold validate_webhook_url.
  destruct (startswith v (lit "https://discord.com/api/webhooks/"));
    destruct (startswith v (lit "https://discordapp.com/api/webhooks/")); cbn;
    (left; split; reflexivity) || (right; split; [reflexivity | eauto]).
Qed.

(** The URL check either accepts its argument unchanged or gives an error. *)
Lemma check_url_cases (v : str) :
  check_url v = inr v \/ exists e, check_url v = inl e.
Proof.
  unfold check_url.
  destruct (check_length_spec 50 300 v) as [[-> _] | [[e ->] _]]; [|eauto].
  destruct (validate_webhook_url_spec v) as [[_ ->] | [_ [e ->]]]; eauto.
Qed.

Section Boundary.

Context {U : UnicodeData}.

(** A call of add-webhook with a field that does not validate is answered
    with the errors and leaves the world alone. *)
Lemma rejected_call_has_no_effect raw_name raw_url raw_description en w :
  (exists e, check_name (strip raw_name) = inl e)
  \/ (exists e, check_url (strip raw_url) = inl e) ->
  exists errors,
    call_discord_add_webhook raw_name raw_url raw_description en w = (Rejected errors, w).
Proof.
  unfold call_discord_add_webhook, validate_AddWebhookInput.
  intros H.
  destruct (check_name (strip raw_name)) as [en'|n];
    destruct (check_url (strip raw_url)) as [eu|u];
    destruct (check_description (option_map strip raw_description)) as [ed|d];
    try (eexists; reflexivity).
  destruct H as [[e H] | [e H]]; discriminate.
Qed.

(** A model that validates carries the checked fields. *)
Lemma validated_fields raw_name raw_url raw_description params :
  validate_AddWebhookInput raw_name raw_url raw_description = inr params ->
  check_name (strip raw_name) = inr (name params)
  /\ check_url (strip raw_url) = inr (url params).
Proof.
  unfold validate_AddWebhookInput.
  destruct (check_name (strip raw_name)); [discriminate|].
  destruct (check_url (strip raw_url)); [discriminate|].
  destruct (check_description (option_map strip raw_description)); [discriminate|].
  intros [= <-]. split; reflexivity.
Qed.

End Boundary.

(** C5, as the code has it.  The URL check of add-webhook (length bounds,
    then the prefix validator) accepts a string exactly when it starts with
    one of the two prefixes and has 50 to 300 code points, and it accepts it
    unchanged; add-webhook applies it to the URL argument with its
    surrounding white space stripped, not to the argument as given, stores
    the stripped URL, and refuses every argument whose stripped form fails
    the check at the boundary, before the tool runs. *)
Theorem C5_url_accepted_iff_prefix_and_length (U : UnicodeData) :
  (forall v : str,
     check_url v = inr v <->
     (startswith v (lit "https://discord.com/api/webhooks/") = true
      \/ startswith v (lit "https://discordapp.com/api/webhooks/") = true)
     /\ 50 <= len v <= 300)
  /\ (forall v v' : str, check_url v = inr v' -> v' = v)
  /\ (forall raw_name raw_url raw_description params,
        validate_AddWebhookInput raw_name raw_url raw_description = inr params ->
        url params = strip raw_url /\ check_url (strip raw_url) = inr (strip raw_url))
  /\ (forall raw_name raw_url raw_description en w,
        check_url (strip raw_url) <> inr (strip raw_url) ->
        exists errors,
          call_discord_add_webhook raw_name raw_url raw_description en w = (Rejected errors, w)).
Proof.
  assert (Hiff : forall v : str,
            check_url v = inr v <->
            (startswith v (lit "https://discord.com/api/webhooks/") = true
             \/ startswith v (lit "https://discordapp.com/api/webhooks/") = true)
            /\ 50 <= len v <= 300).
  { intros v. unfold check_url.
    destruct (check_length_spec 50 300 v) as [[-> Hlen] | [[e ->] Hlen]].
    - destruct (validate_webhook_url_spec v) as [[Hok ->] | [Hok [e ->]]];
        apply orb_true_iff in Hok || apply orb_false_iff in Hok.
      + split; [intros _; split; assumption | reflexivity].
      + destruct Hok as [-> ->]. split; [discriminate|]. intros [[H|H] _]; discriminate.
    - split; [discriminate | intros [_ H]; contradiction]. }
  assert (Hsame : forall v v' : str, check_url v = inr v' -> v' = v).
  { intros v v' H. destruct (check_url_cases v) as [E | [e E]]; congruence. }
  split; [exact Hiff|]. split; [exact Hsame|]. split.
  - intros raw_name raw_url raw_description params H.
    apply validated_fields in H. destruct H as [_ H].
    pose proof (Hsame _ _ H) as E. split; [exact E | congruence].
  - intros raw_name raw_url raw_description en w H.
    apply rejected_call_has_no_effect. right.
    destruct (check_url_cases (strip raw_url)) as [E | E]; [contradiction | exact E].
Qed.

(** C5 as stated fails on the argument as given, in both directions: a
    valid URL between two blanks does not start with a prefix and is
    accepted (its stripped form is stored), and a prefix followed by 17
    blanks starts with a prefix, has 50 code points and is refused as too
    short. *)
Lemma C5_url_is_stripped_before_the_check :
  (startswith Examples.padded_url (lit "https://discord.com/api/webhooks/")
   || startswith Examples.padded_url (lit "https://discordapp.com/api/webhooks/")) = false
  /\ len Examples.padded_url = 80
  /\ @validate_AddWebhookInput Latin1.data (lit "releases") Examples.padded_url None
     = inr {| name := lit "releases"; url := Examples.releases_url; description := None |}
  /\ startswith Examples.blank_tailed_url (lit "https://discord.com/api/webhooks/") = true
  /\ len Examples.blank_tailed_url = 50
  /\ @call_discord_add_webhook Latin1.data (lit "releases") Examples.blank_tailed_url None
       Examples.calm Examples.fresh
     = (Rejected [(lit "url", string_too_short 50)], Examples.fresh).
Proof. repeat split; vm_compute; reflexivity. Qed.

(** ** C4: the name of add-webhook *)

Lemma replace_one_by_nothing (a : N) (s : str) :
  replace s [a] [] = filter (fun c => negb (a =? c)%N) s.
Proof.
  cbn. induction s as [|c s IH]; cbn; [reflexivity|].
  rewrite andb_true_r. destruct (a =? c)%N; cbn; [exact IH | f_equal; exact IH].
Qed.

Lemma in_replace_one_by_one (a b x : N) (s : str) :
  In x (replace s [a] [b]) -> x = b \/ In x s.
Proof.
  cbn. induction s as [|c s IH]; cbn; [tauto|].
  rewrite andb_true_r. destruct (a =? c)%N; cbn; intros [H|H]; auto.
  - destruct (IH H); auto.
  - destruct (IH H); auto.
Qed.

Section Names.

Context {U : UnicodeData}.

Lemma isalnum_spec (s : str) :
  isalnum s = true <-> s <> [] /\ forall c, In c s -> isalnum_cp c = true.
Proof.
  unfold isalnum. destruct s as [|x s].
  - split; [discriminate | intros [H _]; congruence].
  - rewrite forallb_forall. split; [intros H; split; [discriminate | exact H] | tauto].
Qed.

Lemma lower_cp_not_upper c x : In x (lower_cp c) -> ascii_upper x = false.
Proof.
  unfold lower_cp, is_ascii.
  destruct (N.ltb_spec c 128) as [Hlt|Hge].
  - intros [<- | []]. destruct (ascii_upper c) eqn:E; [|exact E].
    unfold ascii_upper in *. apply andb_true_iff in E. destruct E as [E1 E2].
    apply N.leb_le in E1, E2. apply andb_false_iff. right. apply N.leb_gt. lia.
  - intros Hx. apply (@ucd_lower_sane _ c x Hge Hx).
Qed.

Lemma lower_from_not_upper (s before : str) x :
  In x (lower_from before s) -> ascii_upper x = false.
Proof.
  revert before. induction s as [|c s IH]; intros before; cbn; [tauto|].
  intros Hin. apply in_app_or in Hin. destruct Hin as [Hin|Hin].
  - destruct (c =? 931)%N.
    + destruct Hin as [<- | []]. destruct (ucd_final_sigma before s); reflexivity.
    + apply (lower_cp_not_upper c x Hin).
  - apply (IH (c :: before) Hin).
Qed.

(** The normalised form of a name holds no ASCII capital. *)
Lemma sanitized_not_upper (v : str) x :
  In x (replace (lower v) (lit " ") (lit "_")) -> ascii_upper x = false.
Proof.
  change (lit " ") with [32%N]. change (lit "_") with [95%N].
  intros H. apply in_replace_one_by_one in H. destruct H as [-> | H].
  - reflexivity.
  - apply (lower_from_not_upper v [] x H).
Qed.

(** What [validate_name] accepts, and as what. *)
Lemma validate_name_spec (v k : str) :
  let sanitized := replace (lower v) (lit " ") (lit "_") in
  validate_name v = inr k <->
  k = sanitized
  /\ (exists c, In c sanitized /\ c <> 95%N)
  /\ (forall c, In c sanitized -> refused_in_name c = false).
Proof.
  intros sanitized. unfold validate_name. fold sanitized.
  change (lit "_") with [95%N]. rewrite replace_one_by_nothing.
  destruct (isalnum (filter (fun c => negb (95 =? c)%N) sanitized)) eqn:E; cbn [negb].
  - apply isalnum_spec in E. destruct E as [Hne Hall]. split.
    + intros [= <-]. split; [reflexivity|]. split.
      * destruct (filter (fun c => negb (95 =? c)%N) sanitized) as [|c l] eqn:F; [congruence|].
        assert (Hc : In c (filter (fun c => negb (95 =? c)%N) sanitized))
          by (rewrite F; left; reflexivity).
        apply filter_In in Hc. destruct Hc as [Hc1 Hc2].
        exists c. split; [exact Hc1|]. apply negb_true_iff, N.eqb_neq in Hc2. congruence.
      * intros c Hc. unfold refused_in_name.
        pose proof (sanitized_not_upper v c Hc) as Hup.
        destruct (N.eqb_spec c 95) as [->|Hne95]; [reflexivity|].
        assert (Hal : isalnum_cp c = true).
        { apply Hall. apply filter_In. split; [exact Hc|].
          apply negb_true_iff, N.eqb_neq. congruence. }
        unfold isalnum_cp in Hal. rewrite Hup in Hal. cbn [orb] in Hal.
        destruct (is_ascii c); rewrite Hal; [rewrite orb_false_r|]; reflexivity.
    + intros [-> _]. reflexivity.
  - split; [discriminate|]. intros [_ [[c0 [Hc0 Hne0]] Hall]]. exfalso.
    assert (Hok : isalnum (filter (fun c => negb (95 =? c)%N) sanitized) = true);
      [|congruence].
    apply isalnum_spec. split.
    + intros F.
      assert (Hin : In c0 (filter (fun c => negb (95 =? c)%N) sanitized)).
      { apply filter_In. split; [exact Hc0|]. apply negb_true_iff, N.eqb_neq. congruence. }
      rewrite F in Hin. destruct Hin.
    + intros c Hc. apply filter_In in Hc. destruct Hc as [Hc Hne].
      apply negb_true_iff, N.eqb_neq in Hne.
      pose proof (Hall c Hc) as Hr. unfold refused_in_name in Hr. unfold isalnum_cp.
      destruct (is_ascii c).
      * apply negb_false_iff in Hr. apply orb_true_iff in Hr. destruct Hr as [Hr|Hr].
        -- apply orb_true_iff in Hr. destruct Hr as [-> | ->];
             rewrite ?orb_true_r; reflexivity.
        -- apply N.eqb_eq in Hr. congruence.
      * apply negb_false_iff in Hr. exact Hr.
Qed.

End Names.

(** C4, as the code has it.  add-webhook strips the name, lowercases it and
    turns its blanks into underscores; the model carries that form.  The
    call is refused at the boundary, the registry untouched, when the
    normalised name holds an ASCII code point outside [a-z0-9_] or a code
    point outside ASCII that [str.isalnum] refuses, and when it holds
    nothing but underscores.  The name check accepts exactly the names of 1
    to 50 code points whose normalised form has a code point other than an
    underscore and no refused one: alphanumerics outside ASCII pass. *)
Theorem C4_name_is_normalised_and_checked
    (U : UnicodeData) (raw_name raw_url : str) (raw_description : option str) en w :
  let v := strip raw_name in
  let sanitized := replace (lower v) (lit " ") (lit "_") in
  (forall params,
     validate_AddWebhookInput raw_name raw_url raw_description = inr params ->
     name params = sanitized)
  /\ ((exists c, In c sanitized /\ refused_in_name c = true)
      \/ (forall c, In c sanitized -> c = 95%N) ->
      exists errors,
        call_discord_add_webhook raw_name raw_url raw_description en w = (Rejected errors, w))
  /\ (forall k,
        check_name v = inr k <->
        k = sanitized
        /\ 1 <= len v <= 50
        /\ (exists c, In c sanitized /\ c <> 95%N)
        /\ (forall c, In c sanitized -> refused_in_name c = false)).
Proof.
  intros v sanitized.
  assert (Hcheck : forall k,
            check_name v = inr k <->
            k = sanitized
            /\ 1 <= len v <= 50
            /\ (exists c, In c sanitized /\ c <> 95%N)
            /\ (forall c, In c sanitized -> refused_in_name c = false)).
  { intros k. unfold check_name.
    destruct (check_length_spec 1 50 v) as [[-> Hlen] | [[e ->] Hlen]].
    - rewrite (validate_name_spec v k). fold sanitized. tauto.
    - split; [discriminate | tauto]. }
  split; [|split; [|exact Hcheck]].
  - intros params H. apply validated_fields in H. destruct H as [H _].
    apply Hcheck in H. tauto.
  - intros Hbad. apply rejected_call_has_no_effect. left. fold v.
    destruct (check_name v) as [e|k]; [eauto|]. exfalso.
    destruct (proj1 (Hcheck k) eq_refl) as [_ [_ [[c0 [Hc0 Hne0]] Hall]]].
    destruct Hbad as [[c [Hc Href]] | Honly].
    + rewrite (Hall c Hc) in Href. discriminate.
    + apply Hne0, Honly, Hc0.
Qed.

(** C4 as stated fails: the letter U+00E9 lies outside [a-z0-9_], yet
    [str.isalnum] accepts it, so add-webhook takes the name and writes the
    registry. *)
Lemma C4_alphanumeric_outside_ascii_is_accepted :
  (ascii_lower 233 || ascii_digit 233 || (233 =? 95)%N) = false
  /\ @validate_name Latin1.data [233%N] = inr [233%N]
  /\ @call_discord_add_webhook Latin1.data [233%N] Examples.releases_url None
        Examples.calm Examples.fresh
     = (Returned (lit "Webhook '" ++ [233%N] ++
                  lit "' added successfully. You can now use it with discord_send_message or discord_send_announcement."),
        World (Stored [([233%N],
                        Entry (Some Examples.releases_url) (Some None)
                              (Some (now Examples.calm)))]) []).
Proof. repeat split; vm_compute; reflexivity. Qed.

(** ** send-announcement *)

Section Announcement.

Context {U : UnicodeData}.

Lemma keeps_ret A (a : A) : keeps_world (ret a).
Proof. intros en w. reflexivity. Qed.

Lemma keeps_raise A (e : exn) : keeps_world (@raise A e).
Proof. intros en w. reflexivity. Qed.

Lemma keeps_bind A B (m : M A) (k : A -> M B) :
  keeps_world m -> (forall a, keeps_world (k a)) -> keeps_world (bind m k).
Proof.
  intros Hm Hk en w. unfold bind. specialize (Hm en w).
  destruct (m en w) as [[a|e] w']; cbn [snd] in *; subst w'; [apply Hk | reflexivity].
Qed.

Lemma keeps_try_except A (m : M A) catches handler :
  keeps_world m -> (forall e, keeps_world (handler e)) ->
  keeps_world (try_except m catches handler).
Proof.
  intros Hm Hh en w. unfold try_except. specialize (Hm en w).
  destruct (m en w) as [[a|e] w']; cbn [snd] in *; subst w'; [reflexivity|].
  destruct (catches e); [apply Hh | reflexivity].
Qed.

Lemma keeps_load : keeps_world _load_webhooks.
Proof. intros en w. rewrite load_webhooks_cases. destruct (file w); reflexivity. Qed.

Lemma keeps_get_webhook_url key : keeps_world (_get_webhook_url key).
Proof.
  unfold _get_webhook_url. apply keeps_bind; [apply keeps_load|].
  intros a. apply keeps_ret.
Qed.

Lemma keeps_getitem d k : keeps_world (getitem d k).
Proof. unfold getitem. destruct (Dict.get d k); [apply keeps_ret | apply keeps_raise]. Qed.

Lemma keeps_value_getitem v k : keeps_world (value_getitem v k).
Proof. destruct v; try apply keeps_raise. apply keeps_getitem. Qed.

Lemma keeps_preview_fields fields : keeps_world (preview_fields fields).
Proof.
  induction fields as [|f fields IH]; cbn [preview_fields]; [apply keeps_ret|].
  apply keeps_bind; [apply keeps_value_getitem|]. intros n.
  apply keeps_bind; [apply keeps_value_getitem|]. intros v.
  apply keeps_bind; [exact IH|]. intros more. apply keeps_ret.
Qed.

Lemma keeps_response_json resp : keeps_world (response_json resp).
Proof. unfold response_json. destruct (json resp); [apply keeps_ret | apply keeps_raise]. Qed.

Lemma keeps_get_message j t : keeps_world (get_message j t).
Proof. destruct j; try apply keeps_raise. apply keeps_ret. Qed.

Lemma tool_world (m : M str) handler en w :
  snd (tool m handler en w) = snd (m en w).
Proof. unfold tool. destruct (m en w) as [[s|e] w']; reflexivity. Qed.

Lemma bind_world A B (m : M A) (k : A -> M B) en w :
  (forall a, keeps_world (k a)) -> snd (bind m k en w) = snd (m en w).
Proof.
  intros Hk. unfold bind. destruct (m en w) as [[a|e] w']; [apply Hk | reflexivity].
Qed.

(** A dispatch sends exactly one request, whatever the peer does. *)
Lemma send_webhook_message_world url content username avatar_url embeds en w :
  snd (_send_webhook_message url content username avatar_url embeds en w) =
    World (file w)
      (posts w ++ [Request url (JDict (payload_of content username avatar_url embeds))]).
Proof.
  unfold _send_webhook_message.
  set (req := Request url (JDict (payload_of content username avatar_url embeds))).
  rewrite bind_world.
  - unfold post. destruct (http_post en (posts w) req); reflexivity.
  - intros resp.
    destruct (status_code resp =? 204)%Z; [apply keeps_ret|].
    destruct (status_code resp =? 200)%Z.
    + apply keeps_bind; [|intros; apply keeps_ret].
      destruct (truthy (text resp)); [apply keeps_response_json | apply keeps_ret].
    + apply keeps_bind; [|intros; apply keeps_ret].
      apply keeps_try_except; [|intros; apply keeps_ret].
      apply keeps_bind; [apply keeps_response_json | intros; apply keeps_get_message].
Qed.

End Announcement.

(** ** C6: a plain-text announcement that is too long *)

(** C6.  A send-announcement call with [use_embed=false] whose formatted
    text has more than 2000 code points sends no request and leaves the
    registry as it is; the call that reaches the plain-text branch (its
    webhook name is configured: the lookup comes first) returns the length
    error. *)
Theorem C6_long_plain_announcement_is_not_dispatched
    (U : UnicodeData) (params : SendAnnouncementInput) en w :
  let announcement :=
    _format_announcement (version params) (headline params) (changes params)
      (download_url params) (style params) (beta_warning params) in
  use_embed params = false ->
  DISCORD_MESSAGE_LIMIT < len announcement ->
  snd (discord_send_announcement params en w) = w
  /\ posts (snd (discord_send_announcement params en w)) = posts w
  /\ (forall url,
        _get_webhook_url (webhook_name params) en w = (Ok (Some url), w) -> url <> [] ->
        fst (discord_send_announcement params en w) = too_long_message announcement).
Proof.
  intros announcement Huse Hlong. apply Nat.ltb_lt in Hlong.
  assert (Hworld : snd (discord_send_announcement params en w) = w).
  { unfold discord_send_announcement. rewrite tool_world.
    apply keeps_bind; [apply keeps_get_webhook_url|]. intros o.
    destruct (negb (option_truthy o)).
    - apply keeps_bind; [apply keeps_load|]. intros webhooks.
      destruct (Dict.keys webhooks); apply keeps_ret.
    - rewrite Huse. fold announcement. rewrite Hlong. apply keeps_ret. }
  split; [exact Hworld|]. split; [rewrite Hworld; reflexivity|].
  intros url Hurl Hne.
  unfold discord_send_announcement, tool, bind. rewrite Hurl.
  destruct url as [|c url]; [contradiction|]. cbn [option_truthy truthy negb].
  rewrite Huse. fold announcement. rewrite Hlong. reflexivity.
Qed.

(** C6 at a concrete call: 2000 letters in one change, the webhook
    configured. *)
Lemma C6_long_plain_announcement_witness :
  fst (@discord_send_announcement Latin1.data Examples.long_plain Examples.calm
         Examples.with_releases)
    = lit "Error: Announcement is too long (2029 chars). Discord limit is 2000 characters. Reduce the number of changes or shorten descriptions."
  /\ snd (@discord_send_announcement Latin1.data Examples.long_plain Examples.calm
            Examples.with_releases) = Examples.with_releases.
Proof.
  pose proof (C6_long_plain_announcement_is_not_dispatched Latin1.data Examples.long_plain
                Examples.calm Examples.with_releases eq_refl
                ltac:(vm_compute; lia)) as H.
  cbv zeta in H. destruct H as [Hw [_ Hout]]. split; [|exact Hw].
  rewrite (Hout Examples.releases_url eq_refl ltac:(discriminate)).
  vm_compute. reflexivity.
Defined.

(** The lookup comes before the formatting and the length test: for a
    name that is not configured, a long announcement is answered with the
    not-found text, as a short one is. *)
Lemma unknown_webhook_is_reported_before_the_length :
  use_embed Examples.long_plain = false
  /\ (DISCORD_MESSAGE_LIMIT
      <? len (_format_announcement (version Examples.long_plain) (headline Examples.long_plain)
                (changes Examples.long_plain) (download_url Examples.long_plain)
                (style Examples.long_plain) (beta_warning Examples.long_plain))) = true
  /\ @discord_send_announcement Latin1.data Examples.long_plain Examples.calm Examples.fresh
     = (lit "Error: Webhook 'releases' not found. No webhooks configured. Use discord_add_webhook first.",
        Examples.fresh)
  /\ contains (fst (@discord_send_announcement Latin1.data Examples.long_plain Examples.calm
                      Examples.fresh)) (lit "too long") = false.
Proof. repeat split; vm_compute; reflexivity. Qed.

(** ** C10: a rich card is dispatched whatever its size *)

(** C10.  A send-announcement call with [use_embed=true] whose webhook name
    is configured sends one request to the webhook's URL, carrying the
    built embed: no check of a length stands before the dispatch, and the
    request goes out whatever the peer then answers. *)
Theorem C10_embed_is_dispatched_whatever_its_size
    (U : UnicodeData) (params : SendAnnouncementInput) (url : str) en w :
  let thumbnail :=
    if option_truthy (thumbnail_url params) then thumbnail_url params
    else Some LIVING_LANDS_LOGO_URL in
  let embed :=
    _build_announcement_embed (utcnow en)
      (version params) (headline params) (changes params) (download_url params)
      (style params) (beta_warning params) (embed_color params) thumbnail
      (footer_text params) in
  use_embed params = true ->
  _get_webhook_url (webhook_name params) en w = (Ok (Some url), w) ->
  url <> [] ->
  snd (discord_send_announcement params en w)
    = World (file w)
        (posts w ++
         [Request url (JDict (payload_of None (username params) None (Some [JDict embed])))])
  /\ Dict.get (payload_of None (username params) None (Some [JDict embed])) (lit "embeds")
     = Some (JList [JDict embed]).
Proof.
  intros thumbnail embed Huse Hurl Hne. split.
  - unfold discord_send_announcement. rewrite tool_world.
    unfold bind at 1. rewrite Hurl.
    destruct url as [|c url]; [contradiction|]. cbn [option_truthy truthy negb].
    rewrite Huse. fold thumbnail. fold embed.
    rewrite bind_world; [apply send_webhook_message_world|].
    intros result. destruct (format_is_json (response_format params)); [apply keeps_ret|].
    apply keeps_bind; [apply keeps_value_getitem|]. intros success.
    destruct (value_truthy success); [|apply keeps_ret].
    apply keeps_bind; [apply keeps_getitem|]. intros title.
    apply keeps_bind; [apply keeps_getitem|]. intros description.
    apply keeps_bind; [apply keeps_preview_fields|]. intros fields. apply keeps_ret.
  - unfold payload_of. apply get_set_same.
Qed.

(** C10 at a concrete call: a card with a change of 2000 letters goes out. *)
Lemma C10_embed_is_dispatched_witness :
  exists payload,
    posts (snd (@discord_send_announcement Latin1.data Examples.long_embed Examples.calm
                  Examples.with_releases))
      = [Request Examples.releases_url (JDict payload)]
    /\ exists embed, Dict.get payload (lit "embeds") = Some (JList [JDict embed]).
Proof.
  pose proof (C10_embed_is_dispatched_whatever_its_size Latin1.data Examples.long_embed
                Examples.releases_url Examples.calm Examples.with_releases
                eq_refl eq_refl ltac:(discriminate)) as H.
  cbv zeta in H. destruct H as [Hw Hget].
  eexists. split; [rewrite Hw; reflexivity|].
  eexists. exact Hget.
Defined.

(** ** C7: the colour of the rich card *)

Lemma hex_digit_range (c : N) :
  is_hex_digit c = true ->
  (48 <= c <= 57 \/ 65 <= c <= 70 \/ 97 <= c <= 102)%N.
Proof.
  unfold is_hex_digit, hex_value, digit_value, ascii_digit, ascii_lower, ascii_upper.
  destruct (48 <=? c)%N eqn:E1; destruct (c <=? 57)%N eqn:E2; cbn [andb].
  1: { intros _. apply N.leb_le in E1, E2. lia. }
  all: destruct (97 <=? c)%N eqn:E3; destruct (c <=? 122)%N eqn:E4; cbn [andb].
  all: try (destruct (c - 87 <? 16)%N eqn:E5; [|discriminate]; intros _;
            apply N.leb_le in E3; apply N.ltb_lt in E5; lia).
  all: destruct (65 <=? c)%N eqn:E6; destruct (c <=? 90)%N eqn:E7; cbn [andb];
       try discriminate.
  all: destruct (c - 55 <? 16)%N eqn:E8; [|discriminate]; intros _;
       apply N.leb_le in E6; apply N.ltb_lt in E8; lia.
Qed.

Section Colour.

Context {U : UnicodeData}.

Lemma to_ascii_digits_hex (digits : str) :
  forallb is_hex_digit digits = true -> to_ascii_digits digits = digits.
Proof.
  induction digits as [|c digits IH]; cbn [forallb to_ascii_digits]; [reflexivity|].
  intros H. apply andb_true_iff in H. destruct H as [Hc Hrest].
  apply hex_digit_range in Hc.
  replace (is_ascii c) with true by (symmetry; apply N.ltb_lt; lia).
  f_equal. apply IH. exact Hrest.
Qed.

Lemma hex_run_digits (digits : str) (acc : Z) :
  forallb is_hex_digit digits = true ->
  hex_run false acc digits =
    Some (fold_left
            (fun acc c =>
               (16 * acc + Z.of_N match hex_value c with Some d => d | None => 0%N end)%Z)
            digits acc, []).
Proof.
  revert acc. induction digits as [|c digits IH]; intros acc; cbn [forallb hex_run fold_left];
    [reflexivity|].
  intros H. apply andb_true_iff in H. destruct H as [Hc Hrest].
  pose proof (hex_digit_range c Hc) as Hr.
  replace (c =? 95)%N with false by (symmetry; apply N.eqb_neq; lia).
  unfold is_hex_digit in Hc. destruct (hex_value c) as [d|]; [|discriminate].
  apply IH. exact Hrest.
Qed.

(** A non-empty text of hexadecimal digits parses as its number. *)
Lemma int16_hex (digits : str) :
  digits <> [] -> forallb is_hex_digit digits = true ->
  int16 digits = Some (hex_number digits).
Proof.
  intros Hne Hall. unfold int16. rewrite (to_ascii_digits_hex digits Hall).
  destruct digits as [|c digits]; [contradiction|].
  pose proof Hall as Hall'. cbn [forallb] in Hall'.
  apply andb_true_iff in Hall'. destruct Hall' as [Hc Hrest].
  pose proof (hex_digit_range c Hc) as Hr.
  cbn [skip_spaces]. unfold c_isspace.
  replace (c <=? 13)%N with false by (symmetry; apply N.leb_gt; lia).
  replace (c =? 32)%N with false by (symmetry; apply N.eqb_neq; lia).
  rewrite andb_false_r. cbn [orb].
  replace (c =? 43)%N with false by (symmetry; apply N.eqb_neq; lia).
  replace (c =? 45)%N with false by (symmetry; apply N.eqb_neq; lia).
  unfold is_hex_digit in Hc. destruct (hex_value c) as [d|] eqn:Ed; [|discriminate].
  destruct digits as [|x r]; cbv beta iota zeta.
  - rewrite Ed. rewrite (hex_run_digits [c] 0%Z Hall). reflexivity.
  - pose proof Hrest as Hx. cbn [forallb] in Hx.
    apply andb_true_iff in Hx. destruct Hx as [Hx _]. apply hex_digit_range in Hx.
    replace (x =? 120)%N with false by (symmetry; apply N.eqb_neq; lia).
    replace (x =? 88)%N with false by (symmetry; apply N.eqb_neq; lia).
    rewrite andb_false_r. cbv beta iota zeta.
    rewrite Ed. rewrite (hex_run_digits (c :: x :: r) 0%Z Hall). reflexivity.
Qed.

Lemma lstrip_hash_hex (digits : str) :
  forallb is_hex_digit digits = true ->
  lstrip digits (lit "#") = digits /\ lstrip (35%N :: digits) (lit "#") = digits.
Proof.
  intros Hall.
  assert (H : lstrip digits (lit "#") = digits).
  { destruct digits as [|c digits]; [reflexivity|].
    cbn [forallb] in Hall. apply andb_true_iff in Hall. destruct Hall as [Hc _].
    apply hex_digit_range in Hc. change (lit "#") with [35%N]. cbn [lstrip mem existsb].
    replace (c =? 35)%N with false by (symmetry; apply N.eqb_neq; lia). reflexivity. }
  split; [exact H|]. rewrite <- H at 2. reflexivity.
Qed.

Lemma get_append_field_other embed f k :
  k <> lit "fields" -> Dict.get (append_field embed f) k = Dict.get embed k.
Proof.
  intros Hk. unfold append_field.
  destruct (Dict.get embed (lit "fields")) as [[]|]; apply get_set_other; congruence.
Qed.

(** The embed carries the colour that [embed_color_of] computes. *)
Lemma embed_colour utcnow_iso version headline changes download_url style beta_warning
    embed_color thumbnail_url footer_text :
  colour_of (_build_announcement_embed utcnow_iso version headline changes download_url style
               beta_warning embed_color thumbnail_url footer_text)
    = Some (JInt (embed_color_of style embed_color)).
Proof.
  assert (Hf : lit "color" <> lit "fields") by (vm_compute; discriminate).
  assert (Hu : lit "url" <> lit "color") by (vm_compute; discriminate).
  assert (Ht : lit "thumbnail" <> lit "color") by (vm_compute; discriminate).
  assert (Hfo : lit "footer" <> lit "color") by (vm_compute; discriminate).
  assert (Hfi : lit "fields" <> lit "color") by (vm_compute; discriminate).
  unfold colour_of, _build_announcement_embed.
  rewrite (get_set_other _ _ _ _ _ Hfo).
  destruct thumbnail_url as [t|]; [destruct (truthy t)|];
    rewrite ?(get_set_other _ _ _ _ _ Ht);
    (destruct download_url as [d|]; [destruct (truthy d)|];
     rewrite ?(get_append_field_other _ _ _ Hf), ?(get_set_other _ _ _ _ _ Hu);
     (destruct beta_warning; rewrite ?(get_append_field_other _ _ _ Hf);
      (destruct changes; rewrite ?(get_set_other _ _ _ _ _ Hfi); reflexivity))).
Qed.

End Colour.

(** C7.  Without [embed_color] the embed carries the colour of the style
    (release 0x57F287, hotfix 0xED4245, beta 0xFEE75C, custom 0x5865F2).  A
    custom colour written in hexadecimal digits, with or without a leading
    [#], gives the number it denotes.  Whenever the custom colour does not
    parse, as for ["not-hex"], the embed carries the colour of the style:
    the builder is total. *)
Theorem C7_colour_of_the_rich_card
    (U : UnicodeData) (utcnow_iso version headline : str) (changes : list str)
    (download_url : option str) (beta_warning : bool) (thumbnail_url footer_text : option str) :
  let build style embed_color :=
    _build_announcement_embed utcnow_iso version headline changes download_url style
      beta_warning embed_color thumbnail_url footer_text in
  (forall style, colour_of (build style None) = Some (JInt (color_map style)))
  /\ (color_map RELEASE = 0x57F287 /\ color_map HOTFIX = 0xED4245
      /\ color_map BETA = 0xFEE75C /\ color_map CUSTOM = 0x5865F2)%Z
  /\ (forall style digits,
        digits <> [] -> forallb is_hex_digit digits = true ->
        colour_of (build style (Some digits)) = Some (JInt (hex_number digits))
        /\ colour_of (build style (Some (35%N :: digits))) = Some (JInt (hex_number digits)))
  /\ (forall style embed_color,
        int16 (lstrip embed_color (lit "#")) = None ->
        colour_of (build style (Some embed_color)) = Some (JInt (color_map style)))
  /\ (forall style,
        colour_of (build style (Some (lit "not-hex"))) = Some (JInt (color_map style)))
  /\ (forall style,
        colour_of (build style (Some (lit "#5865F2"))) = Some (JInt 0x5865F2)
        /\ colour_of (build style (Some (lit "5865f2"))) = Some (JInt 0x5865F2)).
Proof.
  intros build. subst build. cbv beta.
  split; [|split; [|split; [|split; [|split]]]].
  - intros style. rewrite embed_colour. reflexivity.
  - repeat split.
  - intros style digits Hne Hall.
    destruct (lstrip_hash_hex digits Hall) as [H1 H2].
    rewrite !embed_colour. unfold embed_color_of.
    cbn [option_truthy truthy]. rewrite H1, H2.
    rewrite (int16_hex digits Hne Hall).
    destruct digits; [contradiction | split; reflexivity].
  - intros style embed_color Hfail. rewrite embed_colour. unfold embed_color_of.
    rewrite Hfail. destruct (option_truthy (Some embed_color)); reflexivity.
  - intros style. rewrite embed_colour. destruct style; vm_compute; reflexivity.
  - intros style. rewrite !embed_colour. split; vm_compute; reflexivity.
Qed.

(** ** C9: what list-webhooks shows of a URL *)

Lemma url_hint_of_tail (head tail : str) :
  len tail = 8 -> head <> [] -> url_hint_of (head ++ tail) = lit "..." ++ tail.
Proof.
  intros Ht Hh. unfold url_hint_of, last_chars, len in *. rewrite length_app, Ht.
  destruct head as [|c head]; [contradiction|]. cbn [List.length].
  replace (8 <? S (List.length head) + 8) with true by (symmetry; apply Nat.ltb_lt; lia).
  replace (S (List.length head) + 8 - 8) with (List.length (c :: head))
    by (cbn [List.length]; lia).
  rewrite skipn_app, skipn_all, Nat.sub_diag. reflexivity.
Qed.

Lemma url_hint_of_short (url : str) : len url <= 8 -> url_hint_of url = url.
Proof.
  intros H. unfold url_hint_of.
  replace (8 <? len url) with false by (symmetry; apply Nat.ltb_ge; exact H). reflexivity.
Qed.

Lemma same_tail_same_hint (u1 u2 : option str) :
  same_tail u1 u2 ->
  url_hint_of match u1 with Some u => u | None => [] end
    = url_hint_of match u2 with Some u => u | None => [] end.
Proof.
  intros [-> | [h1 [h2 [t [-> [-> [Ht [H1 H2]]]]]]]]; [reflexivity|].
  rewrite !url_hint_of_tail by assumption. reflexivity.
Qed.

Lemma listing_folds_agree (r1 r2 : registry) :
  differ_before_tails r1 r2 ->
  (forall acc,
     fold_left (fun sanitized item => Dict.set sanitized (fst item) (sanitized_entry (snd item)))
               r1 acc
     = fold_left (fun sanitized item => Dict.set sanitized (fst item) (sanitized_entry (snd item)))
               r2 acc)
  /\ (forall acc,
        fold_left (fun lines item => lines ++ markdown_entry (fst item) (snd item)) r1 acc
        = fold_left (fun lines item => lines ++ markdown_entry (fst item) (snd item)) r2 acc).
Proof.
  induction 1 as [|[k1 e1] [k2 e2] r1 r2 [Hk [Hd [Ha Hu]]] _ [IH1 IH2]];
    [split; reflexivity|].
  cbn [fst snd] in *. subst k2.
  apply same_tail_same_hint in Hu.
  assert (Hs : sanitized_entry e1 = sanitized_entry e2).
  { unfold sanitized_entry. rewrite Hd, Ha, Hu. reflexivity. }
  assert (Hm : markdown_entry k1 e1 = markdown_entry k1 e2).
  { unfold markdown_entry. rewrite Hd, Ha, Hu. reflexivity. }
  split; intros acc; cbn [fold_left fst snd]; [rewrite Hs; apply IH1 | rewrite Hm; apply IH2].
Qed.

(** C9, as the code has it.  list-webhooks renders of a stored URL only its
    hint: three dots and the last 8 code points when the URL has more than
    8, and the URL itself otherwise.  So two registries whose URLs differ
    only before their last 8 code points, with something before them on both
    sides, give the same listing in both formats.  Names, descriptions and
    timestamps are rendered as stored. *)
Theorem C9_listing_depends_on_url_tails_only
    (params : ListWebhooksInput) en ps (r1 r2 : registry) :
  differ_before_tails r1 r2 ->
  fst (discord_list_webhooks params en (World (Stored r1) ps))
    = fst (discord_list_webhooks params en (World (Stored r2) ps))
  /\ (forall head tail, len tail = 8 -> head <> [] ->
        url_hint_of (head ++ tail) = lit "..." ++ tail)
  /\ (forall url, len url <= 8 -> url_hint_of url = url).
Proof.
  intros H. split; [|split; [exact url_hint_of_tail | exact url_hint_of_short]].
  destruct (listing_folds_agree r1 r2 H) as [Hjson Hmd].
  unfold discord_list_webhooks, tool, bind, _load_webhooks, try_except, open_and_load, ret.
  cbn [file file_exists negb fst].
  destruct H as [|a b r1 r2 Hab Hrest]; [reflexivity|].
  destruct (format_is_json (ls_response_format params)); cbn [fst].
  - rewrite (Hjson []) by (constructor; assumption). reflexivity.
  - rewrite (Hmd _) by (constructor; assumption). reflexivity.
Qed.

(** C9 at two concrete registries: the URLs differ before their last 8 code
    points, the listings agree. *)
Lemma C9_listing_witness :
  fst (discord_list_webhooks {| ls_response_format := JSON |} Examples.calm
         (World (Stored Examples.one_url) []))
    = fst (discord_list_webhooks {| ls_response_format := JSON |} Examples.calm
             (World (Stored Examples.other_url) [])).
Proof.
  apply (proj1 (C9_listing_depends_on_url_tails_only {| ls_response_format := JSON |}
                  Examples.calm [] Examples.one_url Examples.other_url
                  ltac:(constructor; [|constructor]; cbn [fst snd];
                        repeat split; right;
                        exists (lit "https://discord.com/api/webhooks/123456789012345678/abcdefghijklmnopqr"),
                               (lit "https://discordapp.com/api/webhooks/876543210987654321/zyxwvutsrqponmlkji"),
                               (lit "stuvwxyz");
                        repeat split; discriminate))).
Defined.

(** C9 as stated fails.  A URL of at most 8 code points is shown whole and
    without the dots, so a registry holding ["abcdefgh"] and one holding
    ["Xabcdefgh"], which differ only before the last 8 code points, are
    listed differently; and a description is shown as stored, so a webhook
    added with its URL as description has the whole URL in both listings. *)
Lemma C9_short_url_and_description_are_shown :
  (forall format,
     str_eqb
       (fst (discord_list_webhooks {| ls_response_format := format |} Examples.calm
               (World (Stored Examples.short_url) [])))
       (fst (discord_list_webhooks {| ls_response_format := format |} Examples.calm
               (World (Stored Examples.longer_url) []))) = false)
  /\ (forall format,
        contains
          (fst (discord_list_webhooks {| ls_response_format := format |} Examples.calm
                  (snd (discord_add_webhook
                          {| name := lit "releases"; url := Examples.releases_url;
                             description := Some Examples.releases_url |}
                          Examples.calm Examples.fresh))))
          Examples.releases_url = true).
Proof. split; intros []; vm_compute; reflexivity. Qed.

(* ================================================================== *)
(** * Further properties of the registry *)
(* ================================================================== *)


Lemma keys_set V (d : Dict.t V) k v :
  Dict.keys (Dict.set d k v) =
    if Dict.has d k then Dict.keys d else Dict.keys d ++ [k].
Proof.
  unfold Dict.has, Dict.keys. induction d as [|[k0 v0] d IH]; cbn; [reflexivity|].
  destruct (str_eqb k0 k) eqn:E; cbn.
  - apply str_eqb_eq in E. subst k0. reflexivity.
  - rewrite IH. destruct (Dict.get d k); reflexivity.
Qed.

Lemma set_set_same V (d : Dict.t V) k v v' :
  Dict.set (Dict.set d k v) k v' = Dict.set d k v'.
Proof.
  induction d as [|[k0 v0] d IH]; cbn.
  - rewrite str_eqb_refl. reflexivity.
  - destruct (str_eqb k0 k) eqn:E; cbn.
    + rewrite str_eqb_refl. reflexivity.
    + rewrite E, IH. reflexivity.
Qed.

Lemma del_absent V (d : Dict.t V) k : Dict.has d k = false -> Dict.del d k = d.
Proof.
  unfold Dict.has, Dict.del. induction d as [|[k0 v0] d IH]; cbn; [reflexivity|].
  destruct (str_eqb k0 k); [discriminate|]. cbn. intros H. f_equal. exact (IH H).
Qed.

Lemma del_set_new V (d : Dict.t V) k v :
  Dict.has d k = false -> Dict.del (Dict.set d k v) k = d.
Proof.
  unfold Dict.has, Dict.del. induction d as [|[k0 v0] d IH]; cbn.
  - rewrite str_eqb_refl. reflexivity.
  - destruct (str_eqb k0 k) eqn:E; [discriminate|]. cbn. rewrite E. cbn.
    intros H. f_equal. exact (IH H).
Qed.

(** What [discord_add_webhook] answers when the file loads and can be
    written. *)
Lemma add_webhook_text params en w :
  open_for_writing en = None -> loadable (file w) ->
  fst (discord_add_webhook params en w) =
    lit "Webhook '" ++ name params ++ lit "' " ++
    (if Dict.has (loaded (file w)) (name params) then lit "updated" else lit "added") ++
    lit " successfully. You can now use it with discord_send_message or discord_send_announcement.".
Proof.
  intros Hw Hl. unfold discord_add_webhook, tool, bind.
  rewrite (load_webhooks_loadable en w Hl).
  unfold _save_webhooks. rewrite Hw. reflexivity.
Qed.

(** X6.  add-webhook answers "added" for a name that the registry does not
    hold and "updated" for one it holds; a new name goes last in the
    registry and a known name keeps its place, so the listing order is the
    order of first insertion. *)
Theorem add_webhook_reports_added_or_updated params en w :
  open_for_writing en = None -> loadable (file w) ->
  let known := Dict.has (loaded (file w)) (name params) in
  fst (discord_add_webhook params en w) =
    lit "Webhook '" ++ name params ++ lit "' " ++
    (if known then lit "updated" else lit "added") ++
    lit " successfully. You can now use it with discord_send_message or discord_send_announcement."
  /\ Dict.keys (loaded (file (snd (discord_add_webhook params en w)))) =
     (if known then Dict.keys (loaded (file w))
      else Dict.keys (loaded (file w)) ++ [name params]).
Proof.
  intros Hw Hl known. split; [apply add_webhook_text; assumption|].
  rewrite (add_webhook_world params en w Hw Hl). cbn [file loaded].
  apply keys_set.
Qed.

Lemma add_webhook_reports_witness :
  fst (discord_add_webhook
         {| name := lit "releases"; url := Examples.releases_url; description := None |}
         Examples.calm Examples.with_releases)
    = lit "Webhook 'releases' updated successfully. You can now use it with discord_send_message or discord_send_announcement.".
Proof.
  apply (proj1 (add_webhook_reports_added_or_updated
                  {| name := lit "releases"; url := Examples.releases_url; description := None |}
                  Examples.calm Examples.with_releases eq_refl I)).
Defined.

(** X7.  Adding the same webhook a second time (same clock reading) leaves
    the registry file as the first call left it and answers "updated". *)
Theorem add_webhook_twice params en w :
  open_for_writing en = None -> loadable (file w) ->
  let w' := snd (discord_add_webhook params en w) in
  snd (discord_add_webhook params en w') = w'
  /\ fst (discord_add_webhook params en w') =
     lit "Webhook '" ++ name params ++
     lit "' updated successfully. You can now use it with discord_send_message or discord_send_announcement.".
Proof.
  intros Hw Hl w'. subst w'. rewrite (add_webhook_world params en w Hw Hl).
  split.
  - rewrite add_webhook_world by (exact Hw || exact I). cbn [file loaded posts].
    rewrite set_set_same. reflexivity.
  - rewrite add_webhook_text by (exact Hw || exact I). cbn [file loaded].
    unfold Dict.has. rewrite get_set_same. reflexivity.
Qed.

Lemma add_webhook_twice_witness :
  snd (discord_add_webhook
         {| name := lit "releases"; url := Examples.releases_url; description := None |}
         Examples.calm
         (snd (discord_add_webhook
                 {| name := lit "releases"; url := Examples.releases_url; description := None |}
                 Examples.calm Examples.fresh)))
    = snd (discord_add_webhook
             {| name := lit "releases"; url := Examples.releases_url; description := None |}
             Examples.calm Examples.fresh).
Proof.
  apply (proj1 (add_webhook_twice
                  {| name := lit "releases"; url := Examples.releases_url; description := None |}
                  Examples.calm Examples.fresh eq_refl I)).
Defined.

Section RegistryFrames.

Context {U : UnicodeData}.


(** The world after [discord_add_webhook]: the file rewritten, or nothing
    changed. *)
Lemma add_webhook_world_cases params en w :
  snd (discord_add_webhook params en w) =
    match open_for_writing en, file w with
    | Some _, _ => w
    | None, Undecodable _ => w
    | None, f =>
        World (Stored (Dict.set (loaded f) (name params)
                         (Entry (Some (url params)) (Some (description params)) (Some (now en)))))
              (posts w)
    end.
Proof.
  unfold discord_add_webhook, tool, bind. rewrite load_webhooks_cases.
  unfold _save_webhooks.
  destruct (file w); destruct (open_for_writing en); reflexivity.
Qed.

(** The world after [discord_remove_webhook]: the file rewritten without the
    webhook, or nothing changed. *)
Lemma remove_webhook_world_cases params en w :
  snd (discord_remove_webhook params en w) =
    match open_for_writing en, file w with
    | None, Stored doc =>
        if Dict.has doc (lower (rm_name params))
        then World (Stored (Dict.del doc (lower (rm_name params)))) (posts w)
        else w
    | _, _ => w
    end.
Proof.
  unfold discord_remove_webhook, tool, bind. rewrite load_webhooks_cases.
  unfold _save_webhooks.
  destruct w as [f ps]. cbn [file posts].
  destruct f as [| why | why | why | doc];
    try (destruct (open_for_writing en); reflexivity).
  cbn [loaded]. destruct (Dict.has doc (lower (rm_name params))); cbn [negb].
  - destruct (open_for_writing en); reflexivity.
  - destruct (Dict.keys doc); destruct (open_for_writing en); reflexivity.
Qed.


(** X9.  When the registry file cannot be opened for writing, add-webhook
    and remove-webhook change nothing, and add-webhook answers with the text
    of the failure. *)
Theorem failed_write_changes_nothing params rm en w e :
  open_for_writing en = Some e ->
  snd (discord_add_webhook params en w) = w
  /\ snd (discord_remove_webhook rm en w) = w
  /\ (loadable (file w) ->
      fst (discord_add_webhook params en w)
        = lit "Error: Failed to save webhook configuration: " ++ exn_text e).
Proof.
  intros He. split; [|split].
  - rewrite add_webhook_world_cases, He. reflexivity.
  - rewrite remove_webhook_world_cases, He. reflexivity.
  - intros Hl. unfold discord_add_webhook, tool, bind.
    rewrite (load_webhooks_loadable en w Hl). unfold _save_webhooks. rewrite He. reflexivity.
Qed.

(** X10.  Adding a webhook under a new name and removing it again leaves the
    registry document as it was: the other webhooks, their order and their
    entries. *)
Theorem add_then_remove_restores params en en' w :
  open_for_writing en = None -> open_for_writing en' = None -> loadable (file w) ->
  lower (name params) = name params ->
  Dict.has (loaded (file w)) (name params) = false ->
  let w' := snd (discord_add_webhook params en w) in
  discord_remove_webhook {| rm_name := name params |} en' w'
    = (lit "Webhook '" ++ name params ++ lit "' removed successfully.",
       World (Stored (loaded (file w))) (posts w)).
Proof.
  intros Hw Hw' Hl Hlow Hnew w'. subst w'.
  rewrite (add_webhook_world params en w Hw Hl).
  unfold discord_remove_webhook, tool, bind. cbn [rm_name].
  rewrite load_webhooks_cases. cbn [file loaded posts]. rewrite Hlow.
  unfold Dict.has at 1. rewrite get_set_same. cbn [negb].
  unfold _save_webhooks. rewrite Hw'. cbn [posts].
  rewrite (del_set_new _ _ _ _ Hnew). reflexivity.
Qed.

(** X11.  remove-webhook of a name that is not configured changes nothing
    and answers with the configured names, or says that there are none. *)
Theorem remove_unknown_webhook rm en w :
  loadable (file w) ->
  Dict.has (loaded (file w)) (lower (rm_name rm)) = false ->
  discord_remove_webhook rm en w =
    (match Dict.keys (loaded (file w)) with
     | [] => lit "Error: Webhook '" ++ rm_name rm ++ lit "' not found. No webhooks configured."
     | available =>
         lit "Error: Webhook '" ++ rm_name rm ++ lit "' not found. Available webhooks: " ++
         join (lit ", ") available
     end, w).
Proof.
  intros Hl Hno. unfold discord_remove_webhook, tool, bind.
  rewrite (load_webhooks_loadable en w Hl). rewrite Hno. cbn [negb].
  destruct (Dict.keys (loaded (file w))); reflexivity.
Qed.

End RegistryFrames.

Lemma failed_write_witness :
  snd (discord_add_webhook Examples.beta_hook Examples.read_only Examples.with_releases)
    = Examples.with_releases
  /\ fst (discord_add_webhook Examples.beta_hook Examples.read_only Examples.with_releases)
     = lit "Error: Failed to save webhook configuration: [Errno 13] Permission denied".
Proof.
  pose proof (@failed_write_changes_nothing Latin1.data Examples.beta_hook
                {| rm_name := lit "releases" |} Examples.read_only Examples.with_releases
                _ eq_refl) as [H1 [_ H3]].
  split; [exact H1 | exact (H3 I)].
Defined.

Lemma add_then_remove_witness :
  @discord_remove_webhook Latin1.data {| rm_name := lit "beta" |} Examples.calm
      (snd (discord_add_webhook Examples.beta_hook Examples.calm Examples.with_releases))
    = (lit "Webhook 'beta' removed successfully.", Examples.with_releases).
Proof.
  apply (@add_then_remove_restores Latin1.data Examples.beta_hook Examples.calm Examples.calm
           Examples.with_releases eq_refl eq_refl I eq_refl eq_refl).
Defined.

Lemma remove_unknown_witness :
  @discord_remove_webhook Latin1.data {| rm_name := lit "Ghost" |} Examples.calm
      Examples.with_releases
    = (lit "Error: Webhook 'Ghost' not found. Available webhooks: releases",
       Examples.with_releases).
Proof.
  apply (@remove_unknown_webhook Latin1.data {| rm_name := lit "Ghost" |} Examples.calm
           Examples.with_releases I eq_refl).
Defined.

(** ** ASCII names *)

Lemma replace_one_by_one (a b : N) (s : str) :
  replace s [a] [b] = map (fun c => if (a =? c)%N then b else c) s.
Proof.
  cbn. induction s as [|c s IH]; cbn; [reflexivity|].
  rewrite andb_true_r. destruct (a =? c)%N; cbn; f_equal; exact IH.
Qed.

Section AsciiNames.

Context {U : UnicodeData}.

Lemma lower_from_ascii (s before : str) :
  forallb is_ascii s = true ->
  lower_from before s = map (fun c => if ascii_upper c then (c + 32)%N else c) s.
Proof.
  revert before. induction s as [|c s IH]; intros before; cbn [forallb lower_from map];
    [reflexivity|].
  intros H. apply andb_true_iff in H. destruct H as [Hc Hs].
  pose proof Hc as Hlt. unfold is_ascii in Hlt. apply N.ltb_lt in Hlt.
  replace (c =? 931)%N with false by (symmetry; apply N.eqb_neq; lia).
  unfold lower_cp. rewrite Hc. cbn [app]. f_equal. apply IH. exact Hs.
Qed.

(** The normalised form of an ASCII name is ASCII, and lowercasing or
    normalising it again changes nothing. *)
Lemma sanitized_ascii_fixed (v : str) :
  forallb is_ascii v = true ->
  let k := replace (lower v) (lit " ") (lit "_") in
  lower k = k /\ replace (lower k) (lit " ") (lit "_") = k.
Proof.
  intros Hv k.
  assert (Hk : forallb is_ascii k = true
               /\ Forall (fun x => ascii_upper x = false /\ x <> 32%N) k).
  { subst k. unfold lower. rewrite (lower_from_ascii v [] Hv).
    change (lit " ") with [32%N]. change (lit "_") with [95%N].
    rewrite replace_one_by_one. clear U.
    induction v as [|c v IH]; cbn [map forallb]; [split; [reflexivity | constructor]|].
    cbn [forallb] in Hv. apply andb_true_iff in Hv. destruct Hv as [Hc Hrest].
    destruct (IH Hrest) as [IH1 IH2]. unfold is_ascii in Hc. apply N.ltb_lt in Hc.
    assert (Hx : forall x, x = (if ascii_upper c then (c + 32)%N else c) ->
                 is_ascii (if (32 =? x)%N then 95%N else x) = true
                 /\ ascii_upper (if (32 =? x)%N then 95%N else x) = false
                 /\ (if (32 =? x)%N then 95%N else x) <> 32%N).
    { intros x Hxc. destruct (N.eqb_spec 32 x) as [E|E].
      - repeat split; try reflexivity. discriminate.
      - unfold ascii_upper in *. destruct (65 <=? c)%N eqn:E1; destruct (c <=? 90)%N eqn:E2;
          cbn [andb] in Hxc; subst x; unfold is_ascii.
        + apply N.leb_le in E1, E2. repeat split.
          * apply N.ltb_lt. lia.
          * apply andb_false_iff. right. apply N.leb_gt. lia.
          * lia.
        + repeat split; [apply N.ltb_lt; lia | rewrite E1, E2; reflexivity | congruence].
        + repeat split; [apply N.ltb_lt; lia | rewrite E1; reflexivity | congruence].
        + repeat split; [apply N.ltb_lt; lia | rewrite E1; reflexivity | congruence]. }
    destruct (Hx _ eq_refl) as [H1 [H2 H3]].
    split; [rewrite H1; exact IH1 | constructor; [split; assumption | exact IH2]]. }
  destruct Hk as [Hascii Hplain].
  assert (Hlow : lower k = k).
  { unfold lower. rewrite (lower_from_ascii k [] Hascii).
    clear Hascii. induction Hplain as [|x l [Hup _] _ IH]; cbn [map]; [reflexivity|].
    rewrite Hup. f_equal. exact IH. }
  split; [exact Hlow|]. rewrite Hlow.
  change (lit " ") with [32%N]. apply replace_one_absent.
  intros Hin. rewrite Forall_forall in Hplain. destruct (Hplain _ Hin) as [_ Hne]. congruence.
Qed.

(** X12.  For an ASCII name that add-webhook accepts, the stored name (the
    one the answer echoes) is stable: lowercasing it gives it back, the name
    validator accepts it as it is, and after the add the lookup of the
    stored name returns the URL.  So a name given with blanks is found again
    under its underscore form. *)
Theorem stored_name_is_stable (v : str) params en en' w :
  forallb is_ascii v = true -> validate_name v = inr (name params) ->
  lower (name params) = name params
  /\ validate_name (name params) = inr (name params)
  /\ (open_for_writing en = None -> loadable (file w) ->
      _get_webhook_url (name params) en' (snd (discord_add_webhook params en w))
        = (Ok (Some (url params)), snd (discord_add_webhook params en w))).
Proof.
  intros Hv Hn.
  destruct (sanitized_ascii_fixed v Hv) as [Hlow Hfix].
  assert (Hk : name params = replace (lower v) (lit " ") (lit "_")).
  { unfold validate_name in Hn.
    destruct (negb (isalnum (replace (replace (lower v) (lit " ") (lit "_")) (lit "_") [])));
      [discriminate|]. injection Hn as <-. reflexivity. }
  rewrite <- Hk in Hlow, Hfix.
  split; [exact Hlow|]. split.
  - unfold validate_name in *. rewrite Hfix. rewrite <- Hk in Hn.
    destruct (negb (isalnum (replace (name params) (lit "_") []))); [discriminate|].
    reflexivity.
  - intros Hw Hl. apply add_then_get; assumption.
Qed.

End AsciiNames.

Lemma stored_name_witness :
  @_get_webhook_url Latin1.data (lit "my_hook") Examples.calm
      (snd (discord_add_webhook
              {| name := lit "my_hook"; url := Examples.releases_url; description := None |}
              Examples.calm Examples.fresh))
    = (Ok (Some Examples.releases_url),
       snd (discord_add_webhook
              {| name := lit "my_hook"; url := Examples.releases_url; description := None |}
              Examples.calm Examples.fresh)).
Proof.
  apply (proj2 (proj2
    (@stored_name_is_stable Latin1.data (lit "My Hook")
       {| name := lit "my_hook"; url := Examples.releases_url; description := None |}
       Examples.calm Examples.calm Examples.fresh eq_refl eq_refl)) eq_refl I).
Defined.

(* ================================================================== *)
(** * Further properties of the dispatch *)
(* ================================================================== *)

Section DispatchCases.

Context {U : UnicodeData}.

(** The exception of the transport passes through the dispatch. *)
Lemma send_webhook_message_raises url content username avatar_url embeds en w e :
  http_post en (posts w)
    (Request url (JDict (payload_of content username avatar_url embeds))) = Raise e ->
  _send_webhook_message url content username avatar_url embeds en w =
    (Raise e,
     World (file w)
       (posts w ++ [Request url (JDict (payload_of content username avatar_url embeds))])).
Proof.
  intros Hpost. unfold _send_webhook_message, bind, post. rewrite Hpost. reflexivity.
Qed.

(** Status 204: delivered, whatever the body. *)
Lemma send_webhook_message_204 url content username avatar_url embeds en w resp :
  http_post en (posts w)
    (Request url (JDict (payload_of content username avatar_url embeds))) = Ok resp ->
  status_code resp = 204%Z ->
  _send_webhook_message url content username avatar_url embeds en w =
    (Ok (delivered 204 []),
     World (file w)
       (posts w ++ [Request url (JDict (payload_of content username avatar_url embeds))])).
Proof.
  intros Hpost Hs. unfold _send_webhook_message, bind, post. rewrite Hpost, Hs. reflexivity.
Qed.


(** Another status with a JSON body that is not an object: [get] is called
    on a value that has none. *)
Lemma send_webhook_message_not_object url content username avatar_url embeds en w resp body :
  http_post en (posts w)
    (Request url (JDict (payload_of content username avatar_url embeds))) = Ok resp ->
  status_code resp <> 204%Z -> status_code resp <> 200%Z ->
  json resp = Ok body -> (forall members, body <> JDict members) ->
  _send_webhook_message url content username avatar_url embeds en w =
    (Raise (Exn OtherException (lit "AttributeError")
              (lit "'" ++ type_name body ++ lit "' object has no attribute 'get'")),
     World (file w)
       (posts w ++ [Request url (JDict (payload_of content username avatar_url embeds))])).
Proof.
  intros Hpost H204 H200 Hjson Hbody.
  unfold _send_webhook_message, bind, post. rewrite Hpost.
  apply Z.eqb_neq in H204, H200. rewrite H204, H200.
  unfold try_except, bind, response_json. rewrite Hjson.
  destruct body; try reflexivity. exfalso. exact (Hbody members eq_refl).
Qed.

(** send-message with a configured name, reduced to its dispatch. *)
Lemma send_message_after_dispatch params url en w r w' :
  _get_webhook_url (sm_webhook_name params) en w = (Ok (Some url), w) -> url <> [] ->
  _send_webhook_message url (Some (sm_content params)) (sm_username params)
      (sm_avatar_url params) None en w = (r, w') ->
  discord_send_message params en w =
    (match r with
     | Raise e => _handle_error e
     | Ok result =>
         if format_is_json (sm_response_format params) then dumps result
         else match result with
              | JDict d =>
                  match Dict.get d (lit "success") with
                  | Some success =>
                      if value_truthy success
                      then lit "Message sent successfully to '" ++ sm_webhook_name params ++
                           lit "' webhook."
                      else lit "Error: Failed to send message. " ++ to_str (get_error result)
                  | None => _handle_error (Exn OtherException (lit "KeyError")
                                             (repr_str (lit "success")))
                  end
              | _ => _handle_error (Exn OtherException (lit "TypeError") [])
              end
     end, w').
Proof.
  intros Hurl Hne Hsend. unfold discord_send_message, tool, bind. rewrite Hurl.
  destruct url as [|c url]; [contradiction|]. cbn [option_truthy truthy negb].
  rewrite Hsend. destruct r as [result|e]; [|reflexivity].
  destruct (format_is_json (sm_response_format params)); [reflexivity|].
  destruct result; try reflexivity.
  unfold value_getitem, getitem. destruct (Dict.get members (lit "success")); [|reflexivity].
  unfold ret. destruct (value_truthy v); reflexivity.
Qed.

End DispatchCases.

(** X13.  A name that is not configured (no entry, or an entry without a
    URL) makes send-message and send-announcement answer with the not-found
    text, which lists the configured names or says that there are none; no
    request is sent and the registry is not touched. *)
Theorem unconfigured_name_sends_nothing
    (U : UnicodeData) (sm : SendMessageInput) (an : SendAnnouncementInput) en w o :
  loadable (file w) ->
  webhook_name an = sm_webhook_name sm ->
  _get_webhook_url (sm_webhook_name sm) en w = (Ok o, w) -> option_truthy o = false ->
  discord_send_message sm en w =
    (match Dict.keys (loaded (file w)) with
     | [] =>
         lit "Error: Webhook '" ++ sm_webhook_name sm ++
         lit "' not found. No webhooks configured. Use discord_add_webhook to add one first."
     | available =>
         lit "Error: Webhook '" ++ sm_webhook_name sm ++
         lit "' not found. Available webhooks: " ++ join (lit ", ") available ++
         lit ". Use discord_add_webhook to add a new one."
     end, w)
  /\ discord_send_announcement an en w =
    (match Dict.keys (loaded (file w)) with
     | [] =>
         lit "Error: Webhook '" ++ sm_webhook_name sm ++
         lit "' not found. No webhooks configured. Use discord_add_webhook first."
     | available =>
         lit "Error: Webhook '" ++ sm_webhook_name sm ++
         lit "' not found. Available webhooks: " ++ join (lit ", ") available
     end, w).
Proof.
  intros Hl Hname Hurl Ho. split.
  - unfold discord_send_message, tool, bind. rewrite Hurl, Ho. cbn [negb].
    rewrite (load_webhooks_loadable en w Hl).
    destruct (Dict.keys (loaded (file w))); reflexivity.
  - unfold discord_send_announcement, tool, bind. rewrite Hname, Hurl, Ho. cbn [negb].
    rewrite (load_webhooks_loadable en w Hl).
    destruct (Dict.keys (loaded (file w))); reflexivity.
Qed.

Lemma unconfigured_name_witness :
  @discord_send_message Latin1.data Examples.hello Examples.calm Examples.fresh
    = (lit "Error: Webhook 'releases' not found. No webhooks configured. Use discord_add_webhook to add one first.",
       Examples.fresh).
Proof.
  apply (proj1 (unconfigured_name_sends_nothing Latin1.data Examples.hello Examples.long_plain
                  Examples.calm Examples.fresh None I eq_refl eq_refl eq_refl)).
Defined.

(** X14.  send-message to a configured name sends one request to the
    webhook's URL; when the peer answers 204 the tool reports the delivery,
    and it never writes the registry file.  A non-empty content is in the
    payload under [content]. *)
Theorem send_message_delivered
    (U : UnicodeData) (params : SendMessageInput) (url : str) en w resp :
  let request :=
    Request url (JDict (payload_of (Some (sm_content params)) (sm_username params)
                          (sm_avatar_url params) None)) in
  _get_webhook_url (sm_webhook_name params) en w = (Ok (Some url), w) -> url <> [] ->
  http_post en (posts w) request = Ok resp -> status_code resp = 204%Z ->
  discord_send_message params en w =
    (match sm_response_format params with
     | JSON => dumps (delivered 204 [])
     | MARKDOWN =>
         lit "Message sent successfully to '" ++ sm_webhook_name params ++ lit "' webhook."
     end, World (file w) (posts w ++ [request]))
  /\ (sm_content params <> [] ->
      Dict.get (payload_of (Some (sm_content params)) (sm_username params)
                  (sm_avatar_url params) None) (lit "content")
        = Some (JStr (sm_content params))).
Proof.
  intros request Hurl Hne Hpost Hs. split.
  - rewrite (send_message_after_dispatch params url en w _ _ Hurl Hne
               (send_webhook_message_204 url _ _ _ _ en w resp Hpost Hs)).
    destruct (sm_response_format params); reflexivity.
  - intros Hc. unfold payload_of.
    assert (Hu : lit "username" <> lit "content") by (vm_compute; discriminate).
    assert (Ha : lit "avatar_url" <> lit "content") by (vm_compute; discriminate).
    destruct (sm_content params) as [|c content]; [contradiction|].
    cbn [add_if_truthy truthy].
    destruct (sm_avatar_url params) as [[|a av]|]; cbn [add_if_truthy truthy];
      rewrite ?(get_set_other _ _ _ _ _ Ha);
      (destruct (sm_username params) as [[|u us]|]; cbn [add_if_truthy truthy];
       rewrite ?(get_set_other _ _ _ _ _ Hu); apply get_set_same).
Qed.

Lemma send_message_delivered_witness :
  @discord_send_message Latin1.data Examples.hello Examples.calm Examples.with_releases
    = (lit "Message sent successfully to 'releases' webhook.",
       World (file Examples.with_releases)
         [Request Examples.releases_url (JDict [(lit "content", JStr (lit "hello"))])]).
Proof.
  apply (proj1 (send_message_delivered Latin1.data Examples.hello Examples.releases_url
                  Examples.calm Examples.with_releases Examples.no_content
                  eq_refl ltac:(discriminate) eq_refl eq_refl)).
Defined.

(** X15.  When the transport fails (the request times out, the connection
    is refused), send-message answers with the text that [_handle_error]
    has for the exception: the fixed timeout and connection texts, or the
    exception's type and message.  The request has gone out; the registry
    file is as it was. *)
Theorem transport_failure_is_reported
    (U : UnicodeData) (params : SendMessageInput) (url : str) en w e :
  let request :=
    Request url (JDict (payload_of (Some (sm_content params)) (sm_username params)
                          (sm_avatar_url params) None)) in
  _get_webhook_url (sm_webhook_name params) en w = (Ok (Some url), w) -> url <> [] ->
  http_post en (posts w) request = Raise e ->
  discord_send_message params en w
    = (_handle_error e, World (file w) (posts w ++ [request]))
  /\ (exn_class_of e = TimeoutException ->
      _handle_error e
        = lit "Error: Request timed out. Discord may be experiencing issues. Please try again.")
  /\ (exn_class_of e = ConnectError ->
      _handle_error e
        = lit "Error: Could not connect to Discord. Check your internet connection.")
  /\ (exn_class_of e = OtherException \/ exn_class_of e = OSError
      \/ exn_class_of e = ValueError \/ exn_class_of e = JSONDecodeError ->
      _handle_error e = lit "Error: " ++ exn_name e ++ lit ": " ++ exn_text e).
Proof.
  intros request Hurl Hne Hpost. split; [|split; [|split]].
  - rewrite (send_message_after_dispatch params url en w _ _ Hurl Hne
               (send_webhook_message_raises url _ _ _ _ en w e Hpost)).
    reflexivity.
  - unfold _handle_error. intros ->. reflexivity.
  - unfold _handle_error. intros ->. reflexivity.
  - unfold _handle_error. intros [-> | [-> | [-> | ->]]]; reflexivity.
Qed.

Lemma transport_failure_witness :
  @discord_send_message Latin1.data Examples.hello Examples.silent Examples.with_releases
    = (lit "Error: Request timed out. Discord may be experiencing issues. Please try again.",
       World (file Examples.with_releases)
         [Request Examples.releases_url (JDict [(lit "content", JStr (lit "hello"))])]).
Proof.
  apply (proj1 (transport_failure_is_reported Latin1.data Examples.hello Examples.releases_url
                  Examples.silent Examples.with_releases _
                  eq_refl ltac:(discriminate) eq_refl)).
Defined.



(** X17.  A failure status whose body is JSON but not an object (a list, a
    string, a number) is not reported with the body: [get] is called on the
    parsed value, the [AttributeError] escapes the dispatch, and
    send-message answers with its text in both formats. *)
Theorem failure_body_that_is_not_an_object
    (U : UnicodeData) (params : SendMessageInput) (url : str) en w resp body :
  let request :=
    Request url (JDict (payload_of (Some (sm_content params)) (sm_username params)
                          (sm_avatar_url params) None)) in
  _get_webhook_url (sm_webhook_name params) en w = (Ok (Some url), w) -> url <> [] ->
  http_post en (posts w) request = Ok resp ->
  status_code resp <> 204%Z -> status_code resp <> 200%Z ->
  json resp = Ok body -> (forall members, body <> JDict members) ->
  discord_send_message params en w
    = (lit "Error: AttributeError: '" ++ type_name body ++ lit "' object has no attribute 'get'",
       World (file w) (posts w ++ [request])).
Proof.
  intros request Hurl Hne Hpost H204 H200 Hjson Hbody.
  rewrite (send_message_after_dispatch params url en w _ _ Hurl Hne
             (send_webhook_message_not_object url _ _ _ _ en w resp body
                Hpost H204 H200 Hjson Hbody)).
  unfold _handle_error. cbn [exn_class_of exn_name exn_text].
  change (lit "Error: AttributeError: '")
    with (lit "Error: " ++ lit "AttributeError" ++ lit ": " ++ lit "'").
  rewrite <- !app_assoc. reflexivity.
Qed.

Lemma failure_body_witness :
  @discord_send_message Latin1.data Examples.hello (Examples.answering Examples.bad_gateway)
      Examples.with_releases
    = (lit "Error: AttributeError: 'list' object has no attribute 'get'",
       World (file Examples.with_releases)
         [Request Examples.releases_url (JDict [(lit "content", JStr (lit "hello"))])]).
Proof.
  apply (failure_body_that_is_not_an_object Latin1.data Examples.hello Examples.releases_url
           (Examples.answering Examples.bad_gateway) Examples.with_releases
           Examples.bad_gateway (JList [])
           eq_refl ltac:(discriminate) eq_refl ltac:(discriminate) ltac:(discriminate) eq_refl
           ltac:(discriminate)).
Defined.

(* ================================================================== *)
(** * Further properties of the formatters *)
(* ================================================================== *)

(** X18.  Every line that the plain-text builder emits for a change begins
    with the arrow glyph, whatever the change begins with. *)
Theorem change_line_starts_with_arrow (change : str) :
  startswith (change_line change) arrow = true.
Proof.
  unfold change_line, arrow.
  change (lit "->") with [45%N; 62%N].
  destruct (startswith change [8594%N]) eqn:E1; cbn [negb andb].
  - destruct change as [|c rest]; [discriminate|].
    cbn [startswith] in E1. rewrite andb_true_r in E1. apply N.eqb_eq in E1. subst c.
    reflexivity.
  - destruct (startswith change [45%N; 62%N]) eqn:E2; cbn [negb]; [|reflexivity].
    destruct change as [|c rest]; [discriminate|].
    cbn [replace replace_from]. rewrite E2. reflexivity.
Qed.

(** X19.  [_handle_error] marks every text it returns as an error: the text
    begins with ["Error: "], whatever the exception. *)
Theorem handle_error_marks_errors (e : exn) :
  startswith (_handle_error e) (lit "Error: ") = true.
Proof.
  unfold _handle_error. destruct (exn_class_of e); try reflexivity.
  repeat match goal with
         | |- context [if ?b then _ else _] => destruct b; try reflexivity
         end.
Qed.

Section Embeds.

Context {U : UnicodeData}.

(** X20.  The fields of the rich card come in a fixed order: "What's New"
    when there are changes (every change behind an arrow glyph and a blank,
    also one that brings its own arrow), then the beta warning when asked
    for, then the download link when a URL is given; a card without any of
    them has no [fields] member. *)
Theorem embed_fields_in_fixed_order utcnow_iso version headline changes download_url style
    beta_warning embed_color thumbnail_url footer_text :
  Dict.get (_build_announcement_embed utcnow_iso version headline changes download_url style
              beta_warning embed_color thumbnail_url footer_text) (lit "fields")
    = match expected_fields changes download_url beta_warning with
      | [] => None
      | fields => Some (JList fields)
      end.
Proof.
  assert (Hfo : lit "footer" <> lit "fields") by (vm_compute; discriminate).
  assert (Ht : lit "thumbnail" <> lit "fields") by (vm_compute; discriminate).
  assert (Hu : lit "url" <> lit "fields") by (vm_compute; discriminate).
  unfold _build_announcement_embed, expected_fields.
  generalize (embed_color_of style embed_color). intros color.
  rewrite (get_set_other _ _ _ _ _ Hfo).
  destruct thumbnail_url as [[|t ts]|]; cbn [truthy];
    rewrite ?(get_set_other _ _ _ _ _ Ht);
    (destruct download_url as [[|d ds]|]; cbn [truthy];
     destruct beta_warning; destruct changes as [|c cs];
     unfold append_field;
     repeat (rewrite ?(get_set_other _ _ _ _ _ Hu), ?get_set_same;
             cbn [Dict.get];
             change (str_eqb (lit "title") (lit "fields")) with false;
             change (str_eqb (lit "description") (lit "fields")) with false;
             change (str_eqb (lit "color") (lit "fields")) with false;
             change (str_eqb (lit "timestamp") (lit "fields")) with false;
             cbv iota);
     reflexivity).
Qed.

End Embeds.

(** X21.  The scalar members of the rich card: the title and the headline
    as built at the start (no later step overwrites them), the timestamp
    with its [Z], the footer with the given text or, when none or an empty
    one is given, ["Release Announcement"], a [url] member exactly when a
    download URL that is not empty is given, and a [thumbnail] member
    exactly when a thumbnail URL that is not empty is given. *)
Theorem embed_members (U : UnicodeData) utcnow_iso version headline changes download_url style
    beta_warning embed_color thumbnail_url footer_text :
  let embed :=
    _build_announcement_embed utcnow_iso version headline changes download_url style
      beta_warning embed_color thumbnail_url footer_text in
  Dict.get embed (lit "title")
    = Some (JStr (emoji_map style ++ lit " " ++ version ++ lit " is live!"))
  /\ Dict.get embed (lit "description") = Some (JStr headline)
  /\ Dict.get embed (lit "timestamp") = Some (JStr (utcnow_iso ++ lit "Z"))
  /\ Dict.get embed (lit "footer")
     = Some (JDict [(lit "text",
                     JStr match footer_text with
                          | Some (c :: f) => c :: f
                          | _ => lit "Release Announcement"
                          end)])
  /\ Dict.get embed (lit "url")
     = match download_url with
       | Some (c :: u) => Some (JStr (c :: u))
       | _ => None
       end
  /\ Dict.get embed (lit "thumbnail")
     = match thumbnail_url with
       | Some (c :: u) => Some (JDict [(lit "url", JStr (c :: u))])
       | _ => None
       end.
Proof.
  assert (member : forall k,
            k <> lit "fields" -> k <> lit "url" -> k <> lit "thumbnail" -> k <> lit "footer" ->
            Dict.get (_build_announcement_embed utcnow_iso version headline changes
                        download_url style beta_warning embed_color thumbnail_url footer_text) k
            = Dict.get [ (lit "title", JStr (emoji_map style ++ lit " " ++ version ++ lit " is live!"));
                         (lit "description", JStr headline);
                         (lit "color", JInt (embed_color_of style embed_color));
                         (lit "timestamp", JStr (utcnow_iso ++ lit "Z")) ] k).
  { intros k Hf Hu Ht Hfo. unfold _build_announcement_embed.
    rewrite get_set_other by congruence.
    destruct thumbnail_url as [t|]; [destruct (truthy t)|];
      rewrite ?get_set_other by congruence;
      (destruct download_url as [d|]; [destruct (truthy d)|];
       rewrite ?(get_append_field_other _ _ _ Hf), ?get_set_other by congruence;
       (destruct beta_warning; rewrite ?(get_append_field_other _ _ _ Hf);
        (destruct changes; rewrite ?get_set_other by congruence; reflexivity))). }
  intros embed. subst embed.
  split; [|split; [|split; [|split; [|split]]]].
  - rewrite member by (vm_compute; discriminate). reflexivity.
  - rewrite member by (vm_compute; discriminate). reflexivity.
  - rewrite member by (vm_compute; discriminate). reflexivity.
  - unfold _build_announcement_embed. rewrite get_set_same.
    destruct footer_text as [[|c f]|]; reflexivity.
  - assert (Hf : lit "url" <> lit "fields") by (vm_compute; discriminate).
    assert (Ht : lit "thumbnail" <> lit "url") by (vm_compute; discriminate).
    assert (Hfo : lit "footer" <> lit "url") by (vm_compute; discriminate).
    assert (Hfi : lit "fields" <> lit "url") by (vm_compute; discriminate).
    unfold _build_announcement_embed.
    rewrite (get_set_other _ _ _ _ _ Hfo).
    destruct thumbnail_url as [t|]; [destruct (truthy t)|];
      rewrite ?(get_set_other _ _ _ _ _ Ht);
      (destruct download_url as [[|d ds]|]; cbn [truthy];
       rewrite ?(get_append_field_other _ _ _ Hf), ?get_set_same;
       try reflexivity;
       (destruct beta_warning; rewrite ?(get_append_field_other _ _ _ Hf);
        (destruct changes; rewrite ?(get_set_other _ _ _ _ _ Hfi); reflexivity))).
  - assert (Hf : lit "thumbnail" <> lit "fields") by (vm_compute; discriminate).
    assert (Hu : lit "url" <> lit "thumbnail") by (vm_compute; discriminate).
    assert (Hfo : lit "footer" <> lit "thumbnail") by (vm_compute; discriminate).
    assert (Hfi : lit "fields" <> lit "thumbnail") by (vm_compute; discriminate).
    unfold _build_announcement_embed.
    rewrite (get_set_other _ _ _ _ _ Hfo).
    destruct thumbnail_url as [[|t ts]|]; cbn [truthy]; rewrite ?get_set_same;
      try reflexivity;
      (destruct download_url as [d|]; [destruct (truthy d)|];
       rewrite ?(get_append_field_other _ _ _ Hf), ?(get_set_other _ _ _ _ _ Hu);
       (destruct beta_warning; rewrite ?(get_append_field_other _ _ _ Hf);
        (destruct changes; rewrite ?(get_set_other _ _ _ _ _ Hfi); reflexivity))).
Qed.

(* ================================================================== *)
(** * What the tools send and write *)
(* ================================================================== *)

Section Traffic.

Context {U : UnicodeData}.

Lemma sends_nothing A (m : M A) en w :
  keeps_world m -> sends_at_most_one w (snd (m en w)).
Proof.
  intros Hm. rewrite (Hm en w). split; [reflexivity|].
  exists []. split; [symmetry; apply app_nil_r | cbn; lia].
Qed.

Lemma sends_after_lookup A B (m : M A) (k : A -> M B) en w :
  keeps_world m -> (forall a, sends_at_most_one w (snd (k a en w))) ->
  sends_at_most_one w (snd (bind m k en w)).
Proof.
  intros Hm Hk. unfold bind. specialize (Hm en w).
  destruct (m en w) as [[a|e] w']; cbn [snd] in Hm; subst w'; [apply Hk|].
  apply (sends_nothing _ (raise e) en w). apply keeps_raise.
Qed.

Lemma sends_one_dispatch B url content username avatar_url embeds (k : value -> M B) en w :
  (forall result, keeps_world (k result)) ->
  sends_at_most_one w
    (snd (bind (_send_webhook_message url content username avatar_url embeds) k en w)).
Proof.
  intros Hk. rewrite (bind_world _ _ _ _ en w Hk), send_webhook_message_world.
  split; [reflexivity|]. eexists. split; [reflexivity | cbn; lia].
Qed.

Lemma keeps_not_found (text1 text2 : str) :
  keeps_world (webhooks <- _load_webhooks ;;
               match Dict.keys webhooks with
               | [] => ret text1
               | _ :: _ => ret text2
               end).
Proof.
  apply keeps_bind; [apply keeps_load|]. intros webhooks.
  destruct (Dict.keys webhooks); apply keeps_ret.
Qed.

(** X22.  send-message and send-announcement never write the registry file,
    and a call sends at most one request: nothing is sent twice, whatever
    the peer answers and however the call ends. *)
Theorem send_tools_send_at_most_once (sm : SendMessageInput) (an : SendAnnouncementInput) en w :
  sends_at_most_one w (snd (discord_send_message sm en w))
  /\ sends_at_most_one w (snd (discord_send_announcement an en w)).
Proof.
  split.
  - unfold discord_send_message. rewrite tool_world.
    apply sends_after_lookup; [apply keeps_get_webhook_url|]. intros o.
    destruct (negb (option_truthy o)).
    + apply sends_nothing.
      apply keeps_bind; [apply keeps_load|]. intros webhooks.
      destruct (Dict.keys webhooks); apply keeps_ret.
    + cbv zeta. apply sends_one_dispatch. intros result.
      destruct (format_is_json (sm_response_format sm)); [apply keeps_ret|].
      apply keeps_bind; [apply keeps_value_getitem|]. intros success.
      destruct (value_truthy success); apply keeps_ret.
  - unfold discord_send_announcement. rewrite tool_world.
    apply sends_after_lookup; [apply keeps_get_webhook_url|]. intros o.
    destruct (negb (option_truthy o)).
    + apply sends_nothing.
      apply keeps_bind; [apply keeps_load|]. intros webhooks.
      destruct (Dict.keys webhooks); apply keeps_ret.
    + cbv zeta. destruct (use_embed an).
      * cbv beta. apply sends_one_dispatch. intros result.
        destruct (format_is_json (response_format an)); [apply keeps_ret|].
        apply keeps_bind; [apply keeps_value_getitem|]. intros success.
        destruct (value_truthy success); [|apply keeps_ret].
        apply keeps_bind; [apply keeps_getitem|]. intros title.
        apply keeps_bind; [apply keeps_getitem|]. intros description.
        apply keeps_bind; [apply keeps_preview_fields|]. intros fields. apply keeps_ret.
      * match goal with |- context [if ?b then _ else _] => destruct b end.
        -- apply sends_nothing, keeps_ret.
        -- apply sends_one_dispatch. intros result.
           destruct (format_is_json (response_format an)); [apply keeps_ret|].
           apply keeps_bind; [apply keeps_value_getitem|]. intros success.
           destruct (value_truthy success); apply keeps_ret.
Qed.

(** X23.  list-webhooks reads only: it writes no file and sends no request,
    whatever the state of the registry file; for a registry without
    webhooks (also a file that is missing or cannot be read as JSON) it
    answers that none are configured, in both formats. *)
Theorem list_webhooks_reads_only (params : ListWebhooksInput) en w :
  snd (discord_list_webhooks params en w) = w
  /\ (loadable (file w) -> loaded (file w) = [] ->
      fst (discord_list_webhooks params en w)
        = lit "No webhooks configured. Use discord_add_webhook to add one.").
Proof.
  split.
  - unfold discord_list_webhooks. rewrite tool_world.
    apply keeps_bind; [apply keeps_load|]. intros webhooks.
    destruct webhooks; [apply keeps_ret|].
    destruct (format_is_json (ls_response_format params)); apply keeps_ret.
  - intros Hl He. unfold discord_list_webhooks, tool, bind.
    rewrite (load_webhooks_loadable en w Hl), He. reflexivity.
Qed.

(** The plain text of an announcement begins with the emoji of its style. *)
Lemma format_announcement_head version headline changes download_url style beta_warning :
  exists rest,
    _format_announcement version headline changes download_url style beta_warning
      = emoji_map style ++ rest.
Proof.
  unfold _format_announcement. cbn [app].
  set (first := emoji_map style ++ lit " **" ++ version ++ lit "** is live!").
  assert (H : forall more, join nl (first :: [] :: more) = emoji_map style ++
              (lit " **" ++ version ++ lit "** is live!") ++ nl ++ join nl ([] :: more)).
  { intros more. unfold first. cbn [join]. rewrite <- app_assoc. reflexivity. }
  destruct beta_warning; destruct (option_truthy download_url);
    cbn [app]; rewrite H; eexists; reflexivity.
Qed.

(** X24.  A plain-text announcement within the limit, to a configured
    webhook that Discord answers with 204: one request goes to the
    webhook's URL with the formatted text as its [content], and the answer
    shows that text in a code fence (as JSON: the result, the text, its
    length in code points and the format). *)
Theorem plain_announcement_delivered
    (params : SendAnnouncementInput) (url : str) en w resp :
  let announcement :=
    _format_announcement (version params) (headline params) (changes params)
      (download_url params) (style params) (beta_warning params) in
  let payload := payload_of (Some announcement) (username params) None None in
  use_embed params = false ->
  len announcement <= DISCORD_MESSAGE_LIMIT ->
  _get_webhook_url (webhook_name params) en w = (Ok (Some url), w) -> url <> [] ->
  http_post en (posts w) (Request url (JDict payload)) = Ok resp ->
  status_code resp = 204%Z ->
  discord_send_announcement params en w =
    (match response_format params with
     | JSON =>
         dumps (JDict [ (lit "result", delivered 204 []);
                        (lit "announcement_preview", JStr announcement);
                        (lit "character_count", JInt (Z.of_nat (len announcement)));
                        (lit "format", JStr (lit "plain_text")) ])
     | MARKDOWN =>
         lit "Announcement sent successfully!" ++ nl ++ nl ++ lit "**Preview:**" ++ nl ++
         lit "```" ++ nl ++ announcement ++ nl ++ lit "```"
     end, World (file w) (posts w ++ [Request url (JDict payload)]))
  /\ Dict.get payload (lit "content") = Some (JStr announcement).
Proof.
  intros announcement payload Huse Hlen Hurl Hne Hpost Hs. split.
  - apply Nat.ltb_ge in Hlen.
    unfold discord_send_announcement, tool, bind. rewrite Hurl.
    destruct url as [|c url]; [contradiction|]. cbn [option_truthy truthy negb].
    rewrite Huse. fold announcement. rewrite Hlen.
    rewrite (send_webhook_message_204 (c :: url) _ _ _ _ en w resp Hpost Hs).
    destruct (response_format params); reflexivity.
  - subst payload. unfold payload_of.
    assert (Hu : lit "username" <> lit "content") by (vm_compute; discriminate).
    destruct (format_announcement_head (version params) (headline params) (changes params)
                (download_url params) (style params) (beta_warning params)) as [rest Hrest].
    fold announcement in Hrest.
    assert (Hcons : exists c tail, announcement = c :: tail).
    { rewrite Hrest. destruct (style params); cbn; eauto. }
    destruct Hcons as [c [tail Hcons]]. rewrite Hcons.
    cbn [add_if_truthy truthy].
    destruct (username params) as [[|u us]|]; cbn [add_if_truthy truthy];
      rewrite ?(get_set_other _ _ _ _ _ Hu); apply get_set_same.
Qed.

End Traffic.

Lemma plain_announcement_witness :
  @discord_send_announcement Latin1.data Examples.short_plain Examples.calm
      Examples.with_releases
    = (lit "Announcement sent successfully!" ++ nl ++ nl ++ lit "**Preview:**" ++ nl ++
       lit "```" ++ nl ++
       ([128680%N] ++ lit " **v2.0** is live!" ++ nl ++ nl ++ lit "News" ++ nl ++ nl ++
        [8594%N] ++ lit " faster") ++ nl ++ lit "```",
       World (file Examples.with_releases)
         [Request Examples.releases_url
            (JDict [(lit "content",
                     JStr ([128680%N] ++ lit " **v2.0** is live!" ++ nl ++ nl ++ lit "News" ++
                           nl ++ nl ++ [8594%N] ++ lit " faster"))])]).
Proof.
  apply (proj1 (@plain_announcement_delivered Latin1.data Examples.short_plain
                  Examples.releases_url Examples.calm Examples.with_releases
                  Examples.no_content eq_refl ltac:(vm_compute; lia) eq_refl
                  ltac:(discriminate) eq_refl eq_refl)).
Defined.

(* ================================================================== *)
(** * Names with blanks *)
(* ================================================================== *)

Section BlankNames.

Context {U : UnicodeData}.

Lemma lower_from_keeps_blank (s before : str) :
  In 32%N s -> In 32%N (lower_from before s).
Proof.
  revert before. induction s as [|c s IH]; intros before; cbn [In]; [tauto|].
  cbn [lower_from]. intros [->|Hin]; apply in_or_app.
  - left. cbn. left. reflexivity.
  - right. apply IH. exact Hin.
Qed.

Lemma sanitized_has_no_blank (v k : str) : validate_name v = inr k -> ~ In 32%N k.
Proof.
  unfold validate_name.
  destruct (negb (isalnum (replace (replace (lower v) (lit " ") (lit "_")) (lit "_") [])));
    [discriminate|].
  intros [= <-].
  change (~ In 32%N (replace (lower v) [32%N] [95%N])).
  rewrite replace_one_by_one. intros Hin. apply in_map_iff in Hin.
  destruct Hin as [c [Hc _]]. destruct (N.eqb_spec 32 c); [discriminate | congruence].
Qed.

(** X25.  A name with a blank that add-webhook accepts is stored under the
    key with underscores, and neither the lookup nor remove-webhook turns
    blanks into underscores: unless the registry already had the key with
    the blank, the webhook just added is not found under the name it was
    added with, and remove-webhook of that name reports it as not found
    among the configured names and removes nothing. *)
Theorem name_with_blank_is_not_found_again (v : str) params en en' w :
  In 32%N v -> validate_name v = inr (name params) ->
  open_for_writing en = None -> loadable (file w) ->
  Dict.has (loaded (file w)) (lower v) = false ->
  let w' := snd (discord_add_webhook params en w) in
  _get_webhook_url v en' w' = (Ok None, w')
  /\ discord_remove_webhook {| rm_name := v |} en' w'
     = (lit "Error: Webhook '" ++ v ++ lit "' not found. Available webhooks: " ++
        join (lit ", ") (Dict.keys (loaded (file w'))), w').
Proof.
  intros Hv Hn Hw Hl Hno w'.
  assert (Hne : name params <> lower v).
  { intros E. apply (sanitized_has_no_blank v (name params) Hn).
    rewrite E. apply lower_from_keeps_blank. exact Hv. }
  assert (Hl' : loadable (file w')).
  { subst w'. rewrite (add_webhook_world params en w Hw Hl). exact I. }
  assert (Hget : Dict.get (loaded (file w')) (lower v) = None).
  { subst w'. rewrite (add_webhook_world params en w Hw Hl). cbn [file loaded].
    rewrite (get_set_other _ _ _ _ _ Hne). unfold Dict.has in Hno.
    destruct (Dict.get (loaded (file w)) (lower v)); [discriminate | reflexivity]. }
  assert (Hkeys : exists k ks, Dict.keys (loaded (file w')) = k :: ks).
  { subst w'. rewrite (add_webhook_world params en w Hw Hl). cbn [file loaded].
    rewrite keys_set.
    destruct (Dict.has (loaded (file w)) (name params)) eqn:E.
    - unfold Dict.has in E. destruct (loaded (file w)) as [|[k e] d]; [discriminate|].
      cbn. eauto.
    - destruct (Dict.keys (loaded (file w))); cbn; eauto. }
  split.
  - rewrite (get_webhook_url_loadable v en' w' Hl'), Hget. reflexivity.
  - unfold discord_remove_webhook, tool, bind. cbn [rm_name].
    rewrite (load_webhooks_loadable en' w' Hl'). unfold Dict.has. rewrite Hget. cbn [negb].
    destruct Hkeys as [k [ks Hkeys]]. rewrite Hkeys. reflexivity.
Qed.

End BlankNames.

Lemma name_with_blank_witness :
  @discord_remove_webhook Latin1.data {| rm_name := lit "my hook" |} Examples.calm
      (snd (discord_add_webhook
              {| name := lit "my_hook"; url := Examples.releases_url; description := None |}
              Examples.calm Examples.fresh))
    = (lit "Error: Webhook 'my hook' not found. Available webhooks: my_hook",
       snd (discord_add_webhook
              {| name := lit "my_hook"; url := Examples.releases_url; description := None |}
              Examples.calm Examples.fresh)).
Proof.
  apply (proj2 (@name_with_blank_is_not_found_again Latin1.data (lit "my hook")
                  {| name := lit "my_hook"; url := Examples.releases_url; description := None |}
                  Examples.calm Examples.calm Examples.fresh
                  ltac:(vm_compute; tauto) eq_refl eq_refl I eq_refl)).
Defined.

(* ================================================================== *)
(** * The listing *)
(* ================================================================== *)

Lemma get_absent V (d : Dict.t V) k : ~ In k (Dict.keys d) -> Dict.get d k = None.
Proof.
  unfold Dict.keys. induction d as [|[k0 v0] d IH]; cbn; [reflexivity|].
  intros Hk. destruct (str_eqb k0 k) eqn:E.
  - apply str_eqb_eq in E. exfalso. apply Hk. left. exact E.
  - apply IH. intros H. apply Hk. right. exact H.
Qed.

Lemma set_absent V (d : Dict.t V) k v :
  Dict.get d k = None -> Dict.set d k v = d ++ [(k, v)].
Proof.
  induction d as [|[k0 v0] d IH]; cbn; [reflexivity|].
  destruct (str_eqb k0 k); [discriminate|]. intros H. f_equal. exact (IH H).
Qed.

(** Filling a dict from items whose keys differ from each other and from
    the keys at hand appends them in their order. *)
Lemma fold_set_distinct V W (g : W -> V) (items : list (str * W)) (acc : Dict.t V) :
  NoDup (Dict.keys acc ++ map fst items) ->
  fold_left (fun d item => Dict.set d (fst item) (g (snd item))) items acc
    = acc ++ map (fun item => (fst item, g (snd item))) items.
Proof.
  revert acc. induction items as [|[k e] items IH]; intros acc Hnd; cbn [fold_left map fst snd].
  - symmetry. apply app_nil_r.
  - assert (Hk : ~ In k (Dict.keys acc)).
    { intros Hin. apply NoDup_remove_2 in Hnd. apply Hnd. apply in_or_app. left. exact Hin. }
    rewrite (set_absent _ _ _ _ (get_absent _ _ _ Hk)).
    rewrite IH.
    + rewrite <- app_assoc. reflexivity.
    + unfold Dict.keys in *. rewrite map_app, <- app_assoc. exact Hnd.
Qed.

Lemma fold_append_lines W (h : W -> list str) (items : list W) (acc : list str) :
  fold_left (fun lines item => lines ++ h item) items acc = acc ++ flat_map h items.
Proof.
  revert acc. induction items as [|i items IH]; intros acc; cbn [fold_left flat_map].
  - symmetry. apply app_nil_r.
  - rewrite IH, <- app_assoc. reflexivity.
Qed.

(** X26.  list-webhooks shows every configured webhook once and in the
    order of the registry: as markdown, the title, an empty line and then
    the five lines of each webhook; as JSON, an object with one member per
    webhook holding its description, URL hint and timestamp.  The registry
    is as a loaded JSON object holds it: no name twice. *)
Theorem listing_shows_the_registry_in_order (params : ListWebhooksInput) en w :
  loadable (file w) -> loaded (file w) <> [] -> NoDup (Dict.keys (loaded (file w))) ->
  discord_list_webhooks params en w =
    (match ls_response_format params with
     | JSON =>
         dumps (JDict (map (fun item => (fst item, sanitized_entry (snd item)))
                           (loaded (file w))))
     | MARKDOWN =>
         join nl (lit "# Configured Discord Webhooks" :: [] ::
                  flat_map (fun item => markdown_entry (fst item) (snd item))
                           (loaded (file w)))
     end, w).
Proof.
  intros Hl Hne Hnd. unfold discord_list_webhooks, tool, bind.
  rewrite (load_webhooks_loadable en w Hl).
  destruct (loaded (file w)) as [|item items] eqn:E; [contradiction|].
  destruct (ls_response_format params); cbn [format_is_json]; unfold ret.
  - rewrite fold_append_lines. reflexivity.
  - rewrite (fold_set_distinct _ _ sanitized_entry (item :: items) []); [reflexivity|].
    exact Hnd.
Qed.

Lemma listing_in_order_witness :
  fst (discord_list_webhooks {| ls_response_format := MARKDOWN |} Examples.calm
         Examples.with_releases)
    = join nl [ lit "# Configured Discord Webhooks"; [];
                lit "## releases";
                lit "- **Description**: None";
                lit "- **URL hint**: `...stuvwxyz`";
                lit "- **Added**: 2024-05-01T12:00:00.000000";
                [] ].
Proof.
  rewrite (listing_shows_the_registry_in_order {| ls_response_format := MARKDOWN |}
             Examples.calm Examples.with_releases I ltac:(discriminate)
             ltac:(constructor; [intros [] | constructor])).
  vm_compute. reflexivity.
Defined.
